(** * Costa runtime (packages/costa/src/runtime.ts): a shallow embedding

    The package-management engine of the Costa runtime is embedded function by
    function.  Pure helpers ([selectNpmPackage], [createRequirements],
    [getNameSchema]) become total functions into a result type that keeps the
    exception a JavaScript call would raise.  Code that touches the HTTP
    cache, the file system or child processes threads an explicit state. *)

From Stdlib Require Import ZArith Ascii List.
From stdpp Require Import base option gmap strings list fin_maps pretty.

(** ** JavaScript values used by the runtime *)

Module Js.

(** Exceptions raised by the runtime, by constructor and message. *)
Inductive error : Type :=
| TypeError (message : string)
| SyntaxError (message : string)
| Error (message : string).

(** The outcome of a call: a returned value or a thrown exception. *)
Inductive result (A : Type) : Type :=
| Return (a : A)
| Throw (e : error).
Arguments Return {A} a.
Arguments Throw {A} e.

(** The double-quote character, for template strings that quote a name. *)
Definition dquote : string := String (ascii_of_nat 34) EmptyString.

(** [if (s)] on a string: every string but the empty one is truthy. *)
Definition truthy_string (s : string) : bool :=
  match s with EmptyString => false | String _ _ => true end.

(** [if (v)] on a value that is a string, [null] or [undefined]. *)
Definition truthy (v : option string) : bool :=
  match v with Some s => truthy_string s | None => false end.

(** [obj[k]] coerces its key to a string: [undefined] reads the property
    named "undefined". *)
Definition propKey (k : option string) : string :=
  match k with Some s => s | None => "undefined" end.

(** The members that every object inherits from [Object.prototype]. *)
Definition object_prototype_members : list string :=
  [ "constructor"; "__proto__"; "hasOwnProperty"; "isPrototypeOf";
    "propertyIsEnumerable"; "toLocaleString"; "toString"; "valueOf";
    "__defineGetter__"; "__defineSetter__"; "__lookupGetter__"; "__lookupSetter__" ].

(** What [obj[key]] evaluates to on a plain object whose own properties hold
    values of one type: the own property of that name; failing that, the
    member of that name that every object inherits, which is a function or
    the prototype itself and no value of the type; failing that,
    [undefined]. *)
Inductive member (A : Type) : Type :=
| Own (a : A)
| Inherited (name : string)
| Undefined.
Arguments Own {A} a.
Arguments Inherited {A} name.
Arguments Undefined {A}.

(** [obj[key]] *)
Definition property {A : Type} (obj : gmap string A) (key : string) : member A :=
  match obj !! key with
  | Some a => Own a
  | None =>
      if bool_decide (key ∈ object_prototype_members) then Inherited key
      else Undefined
  end.

(** [s.startsWith(p)] *)
Fixpoint startsWith (p s : string) : bool :=
  match p with
  | EmptyString => true
  | String a p' =>
      match s with
      | EmptyString => false
      | String b s' => if Ascii.eqb a b then startsWith p' s' else false
      end
  end.

(** [s.search(c)] for a pattern that is one literal character: the index
    of its first occurrence, [None] standing for -1. *)
Fixpoint search (c : ascii) (s : string) : option nat :=
  match s with
  | EmptyString => None
  | String a s' =>
      if Ascii.eqb a c then Some 0
      else match search c s' with Some i => Some (S i) | None => None end
  end.

(** [s.substr(0, n)] *)
Fixpoint substr_to (n : nat) (s : string) : string :=
  match n, s with
  | S n', String a s' => String a (substr_to n' s')
  | _, _ => EmptyString
  end.

(** [s.substr(n)] *)
Fixpoint substr_from (n : nat) (s : string) : string :=
  match n, s with
  | S n', String _ s' => substr_from n' s'
  | _, _ => s
  end.

(** [s.split(c)] for a one-character separator; the result is never
    empty: a string without the separator is returned whole. *)
Fixpoint split (c : ascii) (s : string) : string * list string :=
  match s with
  | EmptyString => (EmptyString, [])
  | String a s' =>
      let '(hd, tl) := split c s' in
      if Ascii.eqb a c then (EmptyString, hd :: tl)
      else (String a hd, tl)
  end.

End Js.

Import Js.

(** ** Data model

    The types that runtime.ts imports from ./index and from the core
    package are declared outside the unit. *)

(** Modelled from the spec: the four source protocols. *)
Inductive PluginProtocol : Type := npm | git | fs | tarball.

(** Modelled from the spec: an optional scope, a name, and a version that
    is a string or [null]. *)
Record NpmPackageNameSchema : Type := mkSchema {
  schema_scope : option string;
  schema_name : string;
  schema_version : option string
}.

(** The fields of a parsed URL that [fetch] reads. *)
Record UrlObject : Type := mkUrl {
  url_hostname : string;
  url_auth : option string;
  url_hash : option string;
  url_pathname : string
}.

(** Modelled from the spec: the protocol, the name as given, the resolved
    locator ([None] when it is [null] or missing), and for registry sources
    the name schema. *)
Record PluginSource : Type := mkSource {
  src_from : PluginProtocol;
  src_name : string;
  src_uri : option string;
  src_urlObject : option UrlObject;
  src_schema : option NpmPackageNameSchema
}.

(** Modelled from the spec: the mapping from a dependency name to a
    version, a wildcard or a repository URL.  The pairs are kept in the
    order [for ... in] enumerates them; the field may be missing. *)
Record CondaConfig : Type := mkConda {
  conda_dependencies : option (list (string * string))
}.

(** The object that [assignPackage] stores in [pipcook.target]. *)
Record PluginTarget : Type := mkTarget {
  PYTHONPATH : string;
  DESTPATH : string
}.

(** Modelled from the spec: the plugin-metadata field of a manifest, with
    what the plugin declares in it and the two fields [assignPackage]
    writes. *)
Record PipcookMeta : Type := mkPipcook {
  pipcook_declared : gmap string string;
  pipcook_source : option PluginSource;
  pipcook_target : option PluginTarget
}.

(** Modelled from the spec: the manifest of a plugin.  A missing or falsy
    [pipcook] field is [None]. *)
Record PluginPackage : Type := mkPackage {
  pkg_name : string;
  pkg_version : string;
  pkg_pipcook : option PipcookMeta;
  pkg_conda : option CondaConfig
}.

Abbreviation NpmPackage := PluginPackage.

(** Modelled from the spec: the dist-tags, from tag to version, and the
    manifests by version. *)
Record NpmPackageMetadata : Type := mkMetadata {
  dist_tags : gmap string string;
  versions : gmap string NpmPackage
}.

(** ** selectNpmPackage *)

Definition no_beta_message (source : PluginSource) : string :=
  "the package " +:+ dquote +:+ src_name source +:+ dquote +:+ " has no beta version.".

(** The function returns [metadata.versions[...]], a property read on the
    object that holds the manifests by version: a version that the object
    does not hold gives [undefined], or the inherited member of that name. *)
Definition selectNpmPackage (metadata : NpmPackageMetadata) (source : PluginSource)
  : result (member NpmPackage) :=
  match src_schema source with
  | None => Throw (TypeError "Cannot destructure property 'version' of 'source.schema' as it is undefined.")
  | Some schema =>
      let version := schema_version schema in
      if decide (version = Some "beta") then
        match dist_tags metadata !! "beta" with
        | None => Throw (TypeError (no_beta_message source))
        | Some b => Return (property (versions metadata) b)
        end
      else if decide (version = Some "latest") then
        Return (property (versions metadata) (propKey (dist_tags metadata !! "latest")))
      else if truthy version then
        Return (property (versions metadata) (propKey (schema_version schema)))
      else
        Return (property (versions metadata) (propKey (dist_tags metadata !! "latest")))
  end.

(** ** createRequirements *)

(** One requirement line, for the pair [k], [v] of [config.dependencies]. *)
Definition requirement_line (k v : string) : string :=
  if decide (v = "*") then k
  else if startsWith "git+https://" v then v
  else k +:+ "==" +:+ v.

(** The [name] argument is unused by the source as well.  A missing
    [dependencies] field makes the [for ... in] loop run zero times. *)
Definition createRequirements (name : string) (config : CondaConfig) : list string :=
  match conda_dependencies config with
  | None => []
  | Some deps => map (fun kv => requirement_line (fst kv) (snd kv)) deps
  end.

(** ** getNameSchema *)

Definition invalid_name_message (fullname : string) : string :=
  "invalid package name: " +:+ fullname.

(** [const [ name, version ] = fullname.split('@')]: the first two parts. *)
Definition name_and_version (fullname : string) : string * option string :=
  let '(name, rest) := split "@"%char fullname in
  (name, head rest).

Definition getNameSchema (fullname : string) : result NpmPackageNameSchema :=
  let finish (scope : option string) (fullname : string) :=
    let '(name, version) := name_and_version fullname in
    Return {| schema_scope := scope;
              schema_name := name;
              schema_version := if truthy version then version else None |} in
  match fullname with
  | String "@"%char _ =>
      match search "/"%char fullname with
      | None => Throw (TypeError (invalid_name_message fullname))
      | Some scopeEnds =>
          finish (Some (substr_to scopeEnds fullname))
                 (substr_from (scopeEnds + 1) fullname)
      end
  | _ => finish None fullname
  end.

(** ** LRUCache (./lrucache) *)

(** What runtime.ts uses of the cache class: [get], which answers with the
    cached value if there is one, and [put]; both may change the cache. *)
Class CacheOps (C V : Type) : Type := {
  cache_get : string -> C -> option V * C;
  cache_put : string -> V -> C -> C
}.

Module LRU.

(** Modelled from the spec: the source of ./lrucache is not part of the
    unit; the cache is a capacity, the keys from most to least recently
    used, and a store. *)
Record t (V : Type) : Type := mk {
  capacity : nat;
  order : list string;
  store : gmap string V
}.
Arguments mk {V} _ _ _.
Arguments capacity {V} _.
Arguments order {V} _.
Arguments store {V} _.

Definition create {V} (limit : nat) : t V := mk limit [] ∅.

(** The key [k] moved to the most recent position. *)
Definition touch (k : string) (keys : list string) : list string :=
  k :: filter (fun k' => k' ≠ k) keys.

(** Modelled from the spec: a hit returns the value and moves the key to
    the most recent position; a miss changes nothing. *)
Definition get {V} (k : string) (c : t V) : option V * t V :=
  match store c !! k with
  | Some v => (Some v, mk (capacity c) (touch k (order c)) (store c))
  | None => (None, c)
  end.

(** The least recently used key dropped from the order and the store. *)
Definition evict {V} (c : t V) : t V :=
  match last (order c) with
  | Some old => mk (capacity c) (removelast (order c)) (delete old (store c))
  | None => c
  end.

(** Modelled from the spec: an existing key has its value replaced and
    moves to the most recent position; a new key, when the cache is full,
    first evicts the least recently used one. *)
Definition put {V} (k : string) (v : V) (c : t V) : t V :=
  match store c !! k with
  | Some _ => mk (capacity c) (touch k (order c)) (<[k := v]> (store c))
  | None =>
      let c' := if decide (capacity c ≤ length (order c)) then evict c else c in
      mk (capacity c) (k :: order c') (<[k := v]> (store c'))
  end.

End LRU.

#[global] Instance lru_cache {V : Type} : CacheOps (LRU.t V) V :=
  {| cache_get := LRU.get; cache_put := LRU.put |}.

(** ** requestHttpGetWithCache *)

Definition HTTP_CACHE_LIMIT : nat := 1000.

Record Headers : Type := mkHeaders {
  hdr_Cache_Control : string;
  hdr_If_Modified_Since : option string;
  hdr_If_None_Match : option string
}.

Record RequestPromiseOptions : Type := mkOptions {
  opt_timeout : Z;
  opt_simple : bool;
  opt_resolveWithFullResponse : bool;
  opt_headers : option Headers
}.

(** The full response that [get] resolves with, as far as the unit uses
    it: the status code, the headers [etag] and [last-modified], the body,
    and the status text, which the response carries as [statusMessage]. *)
Record Response : Type := mkResponse {
  resp_statusCode : Z;
  resp_etag : option string;
  resp_last_modified : option string;
  resp_body : string;
  resp_statusMessage : string
}.

(** [resp.message]: the response has no property of that name, so the read
    gives [undefined], whatever the status text is. *)
Definition resp_message (resp : Response) : option string := None.

Section HttpCache.

(** Parsed JSON values, [JSON.parse] (which throws a SyntaxError on text
    that is not JSON), the truth value of a parsed body, and the
    request-promise [get] call. *)
Variable JSON : Type.
Variable JSON_parse : string -> result JSON.
Variable JSON_truthy : JSON -> bool.
Variable get : string -> RequestPromiseOptions -> result Response.

Record HTTPCache : Type := mkCache {
  etag : option string;
  lastModified : option string;
  body : JSON
}.

Definition conditional_headers (cache : HTTPCache) : Headers :=
  {| hdr_Cache_Control := "max-age=0";
     hdr_If_Modified_Since := lastModified cache;
     hdr_If_None_Match :=
       match etag cache with
       | Some e => if truthy_string e then Some ("W/" +:+ e) else None
       | None => None
       end |}.

Definition request_options (cache : option HTTPCache) : RequestPromiseOptions :=
  {| opt_timeout := 15000;
     opt_simple := false;
     opt_resolveWithFullResponse := true;
     opt_headers :=
       match cache with
       | Some c => if JSON_truthy (body c) then Some (conditional_headers c) else None
       | None => None
       end |}.

(** [new TypeError(m)] with [m] undefined has the empty message. *)
Definition error_message (m : option string) : string :=
  match m with Some s => s | None => "" end.

(** The cache class, by its two operations. *)
Context {C : Type} `{!CacheOps C HTTPCache}.

(** The function on the process-wide cache [httpCacheByURI], passed in and
    returned. *)
Definition requestHttpGetWithCache (uri : string) (httpCacheByURI : C)
  : result JSON * C :=
  let '(cache, httpCacheByURI) := cache_get uri httpCacheByURI in
  let options := request_options cache in
  match get uri options with
  | Throw e => (Throw e, httpCacheByURI)
  | Return resp =>
      if decide (resp_statusCode resp = 200%Z) then
        match JSON_parse (resp_body resp) with
        | Throw e => (Throw e, httpCacheByURI)
        | Return body =>
            (Return body,
             cache_put uri {| etag := resp_etag resp;
                              lastModified := resp_last_modified resp;
                              body := body |} httpCacheByURI)
        end
      else if decide (resp_statusCode resp = 304%Z) then
        match cache with
        | Some c => (Return (body c), httpCacheByURI)
        | None =>
            (Throw (TypeError "Cannot read property 'body' of undefined"),
             httpCacheByURI)
        end
      else (Throw (TypeError (error_message (resp_message resp))), httpCacheByURI)
  end.

End HttpCache.

Arguments etag {JSON} _.
Arguments lastModified {JSON} _.
Arguments body {JSON} _.
Arguments mkCache {JSON} _ _ _.

(** ** Paths (Node's posix [path] module) *)

Module Path.

Definition segments (p : string) : list string :=
  let '(hd, tl) := split "/"%char p in hd :: tl.

Fixpoint endsWithSlash (p : string) : bool :=
  match p with
  | EmptyString => false
  | String a EmptyString => Ascii.eqb a "/"%char
  | String _ p' => endsWithSlash p'
  end.

(** One segment pushed on the stack of segments kept so far (the last one
    first): empty and [.] segments are dropped, [..] removes the segment
    before it, or is kept when the path is relative and nothing is left
    to remove. *)
Definition step (allowAboveRoot : bool) (stack : list string) (seg : string)
  : list string :=
  if decide (seg = "" ∨ seg = ".") then stack
  else if decide (seg = "..") then
    match stack with
    | top :: rest =>
        if decide (top = "..") then (if allowAboveRoot then seg :: stack else stack)
        else rest
    | [] => if allowAboveRoot then [seg] else []
    end
  else seg :: stack.

Definition normalizeString (p : string) (allowAboveRoot : bool) : string :=
  String.concat "/" (rev (fold_left (step allowAboveRoot) (segments p) [])).

(** [path.normalize] *)
Definition normalize (p : string) : string :=
  if decide (p = "") then "."
  else
    let isAbsolute := startsWith "/" p in
    let trailingSeparator := endsWithSlash p in
    let path := normalizeString p (negb isAbsolute) in
    if decide (path = "") then
      (if isAbsolute then "/" else if trailingSeparator then "./" else ".")
    else
      let path := if trailingSeparator then path +:+ "/" else path in
      if isAbsolute then "/" +:+ path else path.

(** [path.join]: the non-empty arguments joined by a slash, normalised. *)
Definition join (parts : list string) : string :=
  match filter (fun part => part ≠ "") parts with
  | [] => "."
  | nonempty => normalize (String.concat "/" nonempty)
  end.

(** The name under which the file system knows a path: its normal form
    without the closing slash. *)
Definition canon (p : string) : string :=
  let n := normalize p in
  if decide (n = "/") then n
  else if endsWithSlash n then substr_to (String.length n - 1) n else n.

(** [k] is the node [c] or lies below it. *)
Definition inside (c k : string) : bool :=
  bool_decide (k = c)
  || startsWith (if decide (c = "/") then c else c +:+ "/") k.

Fixpoint build (pre : string) (segs : list string) : list string :=
  match segs with
  | [] => []
  | seg :: rest => (pre +:+ seg) :: build (pre +:+ seg +:+ "/") rest
  end.

(** The canonical names of the directories from the top down to [c]. *)
Definition ancestors_or_self (c : string) : list string :=
  build (if startsWith "/" c then "/" else "")
        (filter (fun seg => seg ≠ "") (segments c)).

End Path.

(** ** The install root on disk and the effects of the runtime *)

(** The root dependency manifest, [package.json] of the install directory:
    its dependency map, when it has one, and its other fields. *)
Record RootManifest : Type := mkManifest {
  dependencies : option (gmap string string);
  other_fields : gmap string string
}.

Inductive fsnode : Type :=
| Dir
| TextFile (content : string)
| JsonFile (content : RootManifest).

(** Calls that change the world outside the process, in program order. *)
Inductive Event : Type :=
| EvRemove (path : string)
| EvEnsureDir (path : string)
| EvWriteFile (path : string) (data : string)
| EvWriteJson (path : string) (data : RootManifest)
| EvSpawn (command : string) (args : list string) (cwd : option string)
| EvWarn (message : string).

Record World : Type := mkWorld {
  files : gmap string fsnode;
  trace : list Event
}.

Definition emit (e : Event) (w : World) : World :=
  {| files := files w; trace := trace w ++ [e] |}.

Definition set_files (f : gmap string fsnode) (w : World) : World :=
  {| files := f; trace := trace w |}.

(** An asynchronous computation: it runs on a world and leaves a world,
    whether it resolves or rejects. *)
Definition IO (A : Type) : Type := World -> result A * World.

Definition ret {A} (a : A) : IO A := fun w => (Return a, w).
Definition throw {A} (e : error) : IO A := fun w => (Throw e, w).
Definition bind {A B} (c : IO A) (k : A -> IO B) : IO B :=
  fun w =>
    match c w with
    | (Return a, w') => k a w'
    | (Throw e, w') => (Throw e, w')
    end.
Definition try_catch {A} (c : IO A) (handler : error -> IO A) : IO A :=
  fun w =>
    match c w with
    | (Return a, w') => (Return a, w')
    | (Throw e, w') => handler e w'
    end.

Declare Scope io_scope.
Delimit Scope io_scope with io.
Notation "x <- c ;; k" := (bind c (fun x => k))
  (at level 100, c at next level, right associativity) : io_scope.
Notation "c ;;; k" := (bind c (fun _ => k))
  (at level 100, right associativity) : io_scope.
Local Open Scope io_scope.

(** *** fs-extra *)

(** The files are kept under the normal forms of their paths, and a path is
    looked up under its normal form: the answer is the one of the system
    for a path whose directories on the way all exist. *)
Definition pathExists (p : string) : IO bool :=
  fun w => (Return (bool_decide (is_Some (files w !! Path.canon p))), w).

(** [remove] deletes the node and all below it; a missing path is no error. *)
Definition remove (p : string) : IO unit :=
  fun w =>
    (Return tt,
     emit (EvRemove p)
       (set_files (filter (fun kv : string * fsnode =>
                             Path.inside (Path.canon p) (fst kv) = false) (files w)) w)).

Definition mkdir_all (dirs : list string) (f : gmap string fsnode) : gmap string fsnode :=
  fold_left (fun f d => match f !! d with Some _ => f | None => <[d := Dir]> f end) dirs f.

Definition blocked (f : gmap string fsnode) (d : string) : bool :=
  match f !! d with
  | Some Dir | None => false
  | Some _ => true
  end.

(** [ensureDir] creates the directory and its missing parents, and fails
    when a file stands where a directory is needed. *)
Definition ensureDir (p : string) : IO unit :=
  fun w =>
    let dirs := Path.ancestors_or_self (Path.canon p) in
    if existsb (blocked (files w)) dirs
    then (Throw (Error ("EEXIST: file already exists, mkdir '" +:+ p +:+ "'")), w)
    else (Return tt, emit (EvEnsureDir p) (set_files (mkdir_all dirs (files w)) w)).

Definition ENOENT (p : string) : error :=
  Error ("ENOENT: no such file or directory, open '" +:+ p +:+ "'").

Definition ENOTDIR (p : string) : error :=
  Error ("ENOTDIR: not a directory, open '" +:+ p +:+ "'").

Definition EISDIR : error :=
  Error "EISDIR: illegal operation on a directory, read".

Definition EISDIR_open (p : string) : error :=
  Error ("EISDIR: illegal operation on a directory, open '" +:+ p +:+ "'").

(** A name made of [..] segments only: a directory above the one that
    relative paths start from, which is always there. *)
Definition above_start (d : string) : bool :=
  forallb (fun seg => bool_decide (seg = "..")) (Path.segments d).

(** The way down through the directories [dirs]: the first of them that is
    missing or is a file stops it. *)
Fixpoint walk (f : gmap string fsnode) (dirs : list string) : option (string -> error) :=
  match dirs with
  | [] => None
  | d :: rest =>
      if above_start d then walk f rest
      else
        match f !! d with
        | Some Dir => walk f rest
        | Some _ => Some ENOTDIR
        | None => Some ENOENT
        end
  end.

(** Opening [p] for writing creates the file or truncates it, and fails
    when a directory on the way to it is missing or is a file, and when [p]
    itself is a directory; [None] when it can be opened. *)
Definition open_error (p : string) (f : gmap string fsnode) : option error :=
  let c := Path.canon p in
  match walk f (removelast (Path.ancestors_or_self c)) with
  | Some err => Some (err p)
  | None =>
      if bool_decide (c = "/" ∨ c = ".") || above_start c then Some (EISDIR_open p)
      else
        match f !! c with
        | Some Dir => Some (EISDIR_open p)
        | _ => None
        end
  end.

Definition writeFile (p data : string) : IO unit :=
  fun w =>
    match open_error p (files w) with
    | Some e => (Throw e, w)
    | None =>
        (Return tt,
         emit (EvWriteFile p data)
           (set_files (<[Path.canon p := TextFile data]> (files w)) w))
    end.

(** [writeJson] writes the file in place: it creates no directory, so it
    fails when the directory of [p] is not there. *)
Definition writeJson (p : string) (data : RootManifest) : IO unit :=
  fun w =>
    match open_error p (files w) with
    | Some e => (Throw e, w)
    | None =>
        (Return tt,
         emit (EvWriteJson p data)
           (set_files (<[Path.canon p := JsonFile data]> (files w)) w))
    end.

Definition readJson (p : string) : IO RootManifest :=
  fun w =>
    match files w !! Path.canon p with
    | Some (JsonFile m) => (Return m, w)
    | Some (TextFile s) => (Throw (SyntaxError (p +:+ ": Unexpected token in JSON")), w)
    | Some Dir => (Throw EISDIR, w)
    | None => (Throw (ENOENT p), w)
    end.

Definition access (p : string) : IO unit :=
  fun w =>
    match files w !! Path.canon p with
    | Some _ => (Return tt, w)
    | None => (Throw (ENOENT p), w)
    end.

(** ** The runtime *)

(** Modelled from the spec: the configuration of the runtime. *)
Record RuntimeOptions : Type := mkRuntimeOptions {
  installDir : string;
  datasetDir : string;
  componentDir : string;
  npmRegistryPrefix : string
}.

(** What the runtime reads of the Node process: [process.env.NODE_ENV],
    [__dirname] of the module, and [require.resolve], which throws ([None])
    on a module it cannot find. *)
Record Process : Type := mkProcess {
  NODE_ENV : option string;
  dirname : string;
  require_resolve : string -> option string
}.

Record InstallOptions : Type := mkInstallOptions {
  pyIndex : option string;
  force : option bool
}.

(** One entry of the argument of [uninstall]. *)
Record PkgMeta : Type := mkMeta {
  meta_name : string;
  meta_version : string
}.

(** [uninstall] takes one entry or an array of entries. *)
Inductive PkgMetaArg : Type :=
| One (meta : PkgMeta)
| Many (metas : list PkgMeta).

Section Runtime.

(** [this.options] and the process. *)
Variable options : RuntimeOptions.
Variable process : Process.

(** [getPluginDirectory] of ./utils, the directory name of a plugin under
    node_modules; its source is not part of the unit. *)
Variable getPluginDirectory : string -> string -> PluginProtocol -> string.

(** A child process: from the command, its arguments, its working
    directory and the files it finds, the exit code and the files it
    leaves. *)
Variable child :
  string -> list string -> option string -> gmap string fsnode -> Z * gmap string fsnode.

(** The text of a manifest file, for [readFile]. *)
Variable stringify : RootManifest -> string.

Definition readFile (p : string) : IO string :=
  fun w =>
    match files w !! Path.canon p with
    | Some (TextFile s) => (Return s, w)
    | Some (JsonFile m) => (Return (stringify m), w)
    | Some Dir => (Throw EISDIR, w)
    | None => (Throw (ENOENT p), w)
    end.

(** *** validPackage, assignPackage, validAndAssign *)

Definition invalid_plugin_message : string :=
  "Invalid plugin package.json, not found on " +:+ dquote +:+ "pipcook" +:+ dquote.

Definition validPackage (pkg : PluginPackage) : result unit :=
  match pkg_pipcook pkg with
  | None => Throw (TypeError invalid_plugin_message)
  | Some _ => Return tt
  end.

Definition target_of (name version : string) : PluginTarget :=
  {| PYTHONPATH :=
       Path.join [installDir options;
                  "conda_envs/" +:+ name +:+ "@" +:+ version;
                  "lib/python3.7/site-packages"];
     DESTPATH :=
       Path.join [installDir options;
                  "node_modules/" +:+ name +:+ "@" +:+ version] |}.

(** The package object is updated in place; the updated object is the
    result. *)
Definition assignPackage (pkg : PluginPackage) (source : PluginSource)
  : result PluginPackage :=
  match pkg_pipcook pkg with
  | None => Throw (TypeError "Cannot set property 'source' of undefined")
  | Some meta =>
      Return {| pkg_name := pkg_name pkg;
                pkg_version := pkg_version pkg;
                pkg_pipcook :=
                  Some {| pipcook_declared := pipcook_declared meta;
                          pipcook_source := Some source;
                          pipcook_target :=
                            Some (target_of (pkg_name pkg) (pkg_version pkg)) |};
                pkg_conda := pkg_conda pkg |}
  end.

Definition skip_warning : string :=
  "skip the valid package and assign because NODE_ENV is set to "
  +:+ dquote +:+ "test" +:+ dquote +:+ ".".

Definition console_warn (message : string) : IO unit :=
  fun w => (Return tt, emit (EvWarn message) w).

Definition validAndAssign (pkg : PluginPackage) (source : PluginSource)
  : IO PluginPackage :=
  let attempt :=
    match validPackage pkg with
    | Throw e => Throw e
    | Return _ => assignPackage pkg source
    end in
  match attempt with
  | Return pkg' => ret pkg'
  | Throw err =>
      if decide (NODE_ENV process = Some "test")
      then console_warn skip_warning ;;; ret pkg
      else throw err
  end.

(** *** isInstalled *)

Definition isInstalled (name : string) : IO bool :=
  pathExists (installDir options +:+ "/node_modules/" +:+ name).

(** *** spawnAsync *)

Definition invalid_code_message (code : Z) (command : string) : string :=
  "invalid code " +:+ pretty code +:+ " from " +:+ command.

(** The output of the child goes to the caller's sinks, which are not
    part of the state. *)
Definition spawnAsync (command : string) (args : list string) (cwd : option string)
  : IO unit :=
  fun w =>
    let '(code, f) := child command args cwd (files w) in
    let w' := set_files f (emit (EvSpawn command args cwd) w) in
    if decide (code = 0%Z) then (Return tt, w')
    else (Throw (TypeError (invalid_code_message code command)), w').

(** *** installNodeModules *)

(** An element of the argument array of [spawn]: the child process gets a
    value that is not a string as its text, so a locator that the source
    object does not have arrives as the text undefined. *)
Definition spawn_arg (v : option string) : string :=
  match v with Some s => s | None => "undefined" end.

(** The install specifier, [pluginAbsName] in the source.  Reading
    [pkg.pipcook.source.from] throws when [pipcook] or [source] is missing;
    the locator is taken as it is. *)
Definition pluginAbsName (pkg : PluginPackage) : result string :=
  match pkg_pipcook pkg with
  | None => Throw (TypeError "Cannot read property 'source' of undefined")
  | Some meta =>
      match pipcook_source meta with
      | None => Throw (TypeError "Cannot read property 'from' of undefined")
      | Some source =>
          match src_from source with
          | npm =>
              Return (getPluginDirectory (pkg_name pkg) (pkg_version pkg) npm
                      +:+ "@npm:" +:+ pkg_name pkg +:+ "@" +:+ pkg_version pkg)
          | _ => Return (spawn_arg (src_uri source))
          end
      end
  end.

Definition npmArgs (name : string) : list string :=
  [ "pnpm"; "install"; name; "-E"; "-P" ]
  ++ (if truthy_string (npmRegistryPrefix options)
      then [ "--registry=" +:+ npmRegistryPrefix options ] else []).

Definition installNodeModules (pkg : PluginPackage) (opts : InstallOptions) : IO unit :=
  match pluginAbsName pkg with
  | Throw e => throw e
  | Return name =>
      let cwd := Some (installDir options) in
      initialised <- pathExists (installDir options +:+ "/package.json") ;;
      (if initialised then ret tt else spawnAsync "npm" [ "init"; "-y" ] cwd) ;;;
      spawnAsync "npx" (npmArgs name) cwd
  end.

(** *** installPythonPackages *)

Definition newline : string := String (ascii_of_nat 10) EmptyString.

Definition pipArgs (opts : InstallOptions) : list string :=
  [ "install" ]
  ++ (match pyIndex opts with
      | Some i => if truthy_string i then [ "-i"; i ] else []
      | None => []
      end)
  ++ [ "--default-timeout=1000";
       "--cache-dir=" +:+ installDir options +:+ "/.pip" ].

Fixpoint pip_install_each (pip3 : string) (args requirements : list string) : IO unit :=
  match requirements with
  | [] => ret tt
  | req :: rest =>
      spawnAsync pip3 (args ++ [ req ]) None ;;;
      pip_install_each pip3 args rest
  end.

(** The files that the pip processes of the requirements [requirements]
    leave, each one started on the files the one before it left. *)
Definition files_after_pip (pip3 : string) (args requirements : list string)
    (f : gmap string fsnode) : gmap string fsnode :=
  fold_left (fun f req => snd (child pip3 (args ++ [ req ]) None f)) requirements f.

(** The exit code of the pip process of the requirement at index [i], when
    the processes of the requirements before it have run. *)
Definition pip_exit_code (pip3 : string) (args requirements : list string)
    (f : gmap string fsnode) (i : nat) : option Z :=
  match requirements !! i with
  | Some req =>
      Some (fst (child pip3 (args ++ [ req ]) None
                   (files_after_pip pip3 args (take i requirements) f)))
  | None => None
  end.

Definition locate_python (boaSrcPath : string) : IO string :=
  try_catch
    (condaInstallDir <- readFile (boaSrcPath +:+ "/.CONDA_INSTALL_DIR") ;;
     let python := condaInstallDir +:+ "/bin/python3" in
     access python ;;;
     ret python)
    (fun _ => throw (Error "Invalid boa/conda installation, please try to install.")).

Definition installPythonPackages (pkg : PluginPackage) (boaSrcPath : string)
    (opts : InstallOptions) : IO unit :=
  match pkg_conda pkg with
  | Some (mkConda (Some deps)) =>
      let conda := mkConda (Some deps) in
      let pluginStdName := pkg_name pkg +:+ "@" +:+ pkg_version pkg in
      let envDir := Path.join [ installDir options; "conda_envs"; pluginStdName ] in
      remove envDir ;;;
      ensureDir envDir ;;;
      let requirements := createRequirements pluginStdName conda in
      writeFile (envDir +:+ "/requirements.txt") (String.concat newline requirements) ;;;
      python <- locate_python boaSrcPath ;;
      spawnAsync python [ "-m"; "venv"; envDir ] None ;;;
      pip_install_each (envDir +:+ "/bin/pip3") (pipArgs opts) requirements
  | _ => ret tt
  end.

(** *** uninstall *)

(** [if (pkg.dependencies && pkg.dependencies[name]) delete ...] *)
Definition delete_dependency (name : string) (pkg : RootManifest) : RootManifest :=
  match dependencies pkg with
  | Some deps =>
      match deps !! name with
      | Some v =>
          if truthy_string v
          then {| dependencies := Some (delete name deps);
                  other_fields := other_fields pkg |}
          else pkg
      | None => pkg
      end
  | None => pkg
  end.

(** The closure [removePkg]: the manifest object [pkg] it captures is
    passed in and handed back. *)
Definition removePkg (name version : string) (pkg : RootManifest)
  : IO (bool * RootManifest) :=
  installed <- isInstalled name ;;
  if negb installed then ret (false, pkg)
  else
    remove (Path.join [ installDir options; "node_modules"; name ]) ;;;
    remove (Path.join [ installDir options; "conda_envs"; name +:+ "@" +:+ version ]) ;;;
    ret (true, delete_dependency name pkg).

(** The loop over an array of entries. *)
Fixpoint removePkgs (metas : list PkgMeta) (success : bool) (pkg : RootManifest)
  : IO (bool * RootManifest) :=
  match metas with
  | [] => ret (success, pkg)
  | meta :: rest =>
      r <- removePkg (meta_name meta) (meta_version meta) pkg ;;
      removePkgs rest (if fst r then true else success) (snd r)
  end.

Definition manifest_path : string := Path.join [ installDir options; "package.json" ].

(** The removals of [uninstall], by the shape of its argument: the loop
    over an array, or the one call. *)
Definition remove_entries (pkgMeta : PkgMetaArg) (pkg : RootManifest)
  : IO (bool * RootManifest) :=
  match pkgMeta with
  | Many metas => removePkgs metas false pkg
  | One meta => removePkg (meta_name meta) (meta_version meta) pkg
  end.

Definition uninstall (pkgMeta : PkgMetaArg) : IO bool :=
  pkg <- readJson manifest_path ;;
  r <- match pkgMeta with
       | Many metas => removePkgs metas false pkg
       | One meta => removePkg (meta_name meta) (meta_version meta) pkg
       end ;;
  let success := fst r in
  (if success then writeJson manifest_path (snd r) else ret tt) ;;;
  ret success.

(** *** install *)

Definition boa_missing_message (boaSrcPath : string) : string :=
  "boa(" +:+ boaSrcPath +:+ ") not exists, please try init again.".

Definition locate_boa : IO string :=
  let boaSrcPath := Path.join [ dirname process; "../node_modules/@pipcook/boa" ] in
  found <- pathExists boaSrcPath ;;
  if found then ret boaSrcPath
  else
    match require_resolve process "@pipcook/boa" with
    | Some resolved => ret (Path.join [ resolved; "../../" ])
    | None => throw (TypeError (boa_missing_message boaSrcPath))
    end.

(** [Promise.all] of the two pipelines, which the source starts together.
    The embedding fixes one schedule: the module pipeline runs to its end,
    then the interpreter pipeline, whatever the outcome of the first, and
    the call rejects when one of them rejected.  It is exact when at most
    one of the two pipelines acts. *)
Definition promise_all (first second : IO unit) : IO unit :=
  fun w =>
    let '(r1, w1) := first w in
    let '(r2, w2) := second w1 in
    match r1 with
    | Throw e => (Throw e, w2)
    | Return _ => (r2, w2)
    end.

(** Everything [install] does after its installed check. *)
Definition provision (pkg : PluginPackage) (opts : InstallOptions) : IO bool :=
  boaSrcPath <- locate_boa ;;
  promise_all (installNodeModules pkg opts)
              (installPythonPackages pkg boaSrcPath opts) ;;;
  ret true.

Definition install (pkg : PluginPackage) (opts : InstallOptions) : IO bool :=
  (if decide (force opts = Some true)
   then uninstall (One {| meta_name := pkg_name pkg; meta_version := pkg_version pkg |}) ;;;
        ret tt
   else ret tt) ;;;
  installed <- isInstalled (pkg_name pkg) ;;
  if installed && negb (bool_decide (force opts = Some true))
  then ret true
  else provision pkg opts.

End Runtime.

(** ** getSource, fetch, fetchFromInstalledPlugin *)

(** [path.basename]: the last segment that is not empty. *)
Definition basename (p : string) : string :=
  match last (filter (fun seg => seg ≠ "") (Path.segments p)) with
  | Some b => b
  | None => ""
  end.

(** [if (prefix.slice(-1) === '/') prefix = prefix.slice(0, -1)] *)
Definition strip_trailing_slash (prefix : string) : string :=
  if Path.endsWithSlash prefix
  then substr_to (String.length prefix - 1) prefix
  else prefix.

(** [pathname.replace(/^\/:?/, '')]: a leading slash is dropped, and a colon
    that follows it. *)
Definition strip_leading_slash (pathname : string) : string :=
  match pathname with
  | String "/"%char (String ":"%char rest) => rest
  | String "/"%char rest => rest
  | _ => pathname
  end.

(** [v || d] on a value that is a string, [null] or [undefined]. *)
Definition or_else (v : option string) (d : string) : string :=
  match v with
  | Some s => if truthy_string s then s else d
  | None => d
  end.

(** A value that is a string or [null], inside a template string. *)
Definition template_null (v : option string) : string :=
  match v with Some s => s | None => "null" end.

(** [`${auth || 'git'}@${hostname}:${pathname}${hash || ''}`] *)
Definition git_remote (u : UrlObject) : string :=
  or_else (url_auth u) "git"
  +:+ "@" +:+ url_hostname u +:+ ":" +:+ strip_leading_slash (url_pathname u)
  +:+ or_else (url_hash u) "".

(** The schema that [getNameSchema] returns for a scope and the rest of the
    name. *)
Definition schema_of (scope : option string) (fullname : string) : NpmPackageNameSchema :=
  let '(name, version) := name_and_version fullname in
  {| schema_scope := scope;
     schema_name := name;
     schema_version := if truthy version then version else None |}.

Section Fetch.

Variable options : RuntimeOptions.
Variable process : Process.
Variable getPluginDirectory : string -> string -> PluginProtocol -> string.

(** [parsePluginName], [generateId] and the two constants of the core
    package, and the [packageName] getter of the name schema, are declared
    outside the unit.  [generateId] stands for the identifier that the call
    draws. *)
Variable parsePluginName : string -> result (PluginProtocol * option UrlObject).
Variable packageName : NpmPackageNameSchema -> string.
Variable generateId : string.
Variable PIPCOOK_TMPDIR : string.
Variable PIPCOOK_PLUGINS : string.

Definition getSource (name : string) : result PluginSource :=
  match parsePluginName name with
  | Throw e => Throw e
  | Return (protocol, urlObject) =>
      let src uri schema :=
        {| src_from := protocol; src_name := name; src_uri := uri;
           src_urlObject := urlObject; src_schema := schema |} in
      match protocol with
      | fs | git => Return (src (Some name) None)
      | tarball =>
          match urlObject with
          | None => Throw (TypeError "Cannot read property 'pathname' of undefined")
          | Some u =>
              Return (src (Some (Path.join [ PIPCOOK_TMPDIR; generateId;
                                             basename (url_pathname u) ])) None)
          end
      | npm =>
          match getNameSchema name with
          | Throw e => Throw e
          | Return schema =>
              Return (src (Some (strip_trailing_slash (npmRegistryPrefix options)
                                 +:+ "/" +:+ packageName schema))
                          (Some schema))
          end
      end
  end.

(** [validAndAssign] on the value that [fetch] hands over.  When the
    registry has no manifest for the version the value is [undefined], and
    reading [pkg.pipcook] throws inside the [try]; or it is an inherited
    member, which has no [pipcook] property, and [validPackage] throws. *)
Definition validAndAssign_fetched (pkg : member PluginPackage) (source : PluginSource)
  : IO (member PluginPackage) :=
  match pkg with
  | Own pkg => pkg' <- validAndAssign options process pkg source ;; ret (Own pkg')
  | Inherited name =>
      if decide (NODE_ENV process = Some "test")
      then console_warn skip_warning ;;; ret (Inherited name)
      else throw (TypeError invalid_plugin_message)
  | Undefined =>
      if decide (NODE_ENV process = Some "test")
      then console_warn skip_warning ;;; ret Undefined
      else throw (TypeError "Cannot read property 'pipcook' of undefined")
  end.

(** The registry answers with text that [JSON.parse] turns into package
    metadata, the shape [fetch] casts it to; an object is truthy. *)
Variable JSON_parse : string -> result NpmPackageMetadata.
Variable get : string -> RequestPromiseOptions -> result Response.
Context {C : Type} `{!CacheOps C (HTTPCache NpmPackageMetadata)}.

(** The collaborators of the other protocols: the manifest that
    [git archive] delivers for a remote and a head, the manifest file of a
    directory, the download of a tarball, and the manifest inside a
    downloaded tarball. *)
Variable fetchPackageJsonFromGit : string -> string -> result PluginPackage.
Variable readPackageJson : string -> gmap string fsnode -> result PluginPackage.
Variable download : string -> string -> IO unit.
Variable fetchPackageJsonFromTarball : string -> gmap string fsnode -> result PluginPackage.

Definition lift_read {A} (r : gmap string fsnode -> result A) : IO A :=
  fun w => (r (files w), w).

(** The manifest by protocol, before validation; the HTTP cache is passed
    in and returned. *)
Definition fetch_manifest (source : PluginSource) (httpCacheByURI : C)
  : World -> (result (member PluginPackage) * C) * World :=
  fun w =>
    match src_from source with
    | npm =>
        match src_uri source with
        | None => (Throw (Error "options.uri is a required argument"), httpCacheByURI, w)
        | Some uri =>
            let '(resp, httpCacheByURI) :=
              requestHttpGetWithCache NpmPackageMetadata JSON_parse (fun _ => true) get
                uri httpCacheByURI in
            match resp with
            | Throw e => (Throw e, httpCacheByURI, w)
            | Return meta => (selectNpmPackage meta source, httpCacheByURI, w)
            end
        end
    | git =>
        match src_urlObject source with
        | None =>
            (Throw (TypeError "Cannot destructure property 'hostname' of 'source.urlObject' as it is undefined."),
             httpCacheByURI, w)
        | Some u =>
            (match fetchPackageJsonFromGit (git_remote u) "HEAD" with
             | Return pkg => Return (Own pkg)
             | Throw e => Throw e
             end, httpCacheByURI, w)
        end
    | fs =>
        (match readPackageJson (template_null (src_uri source) +:+ "/package.json") (files w) with
         | Return pkg => Return (Own pkg)
         | Throw e => Throw e
         end, httpCacheByURI, w)
    | tarball =>
        let '(r, w') :=
          (download (src_name source) (template_null (src_uri source)) ;;;
           pkg <- lift_read (fetchPackageJsonFromTarball (template_null (src_uri source))) ;;
           ret (Own pkg)) w in
        (r, httpCacheByURI, w')
    end.

Definition fetch (name : string) (httpCacheByURI : C)
  : World -> (result (member PluginPackage) * C) * World :=
  fun w =>
    match getSource name with
    | Throw e => (Throw e, httpCacheByURI, w)
    | Return source =>
        let '(r, httpCacheByURI, w') := fetch_manifest source httpCacheByURI w in
        match r with
        | Throw e => (Throw e, httpCacheByURI, w')
        | Return pkg =>
            let '(r', w'') := validAndAssign_fetched pkg source w' in
            (r', httpCacheByURI, w'')
        end
    end.

(** The source object that [fetchFromInstalledPlugin] builds: the protocol
    and the name, and nothing else. *)
Definition installed_source (name : string) (from : PluginProtocol) : PluginSource :=
  {| src_from := from; src_name := name; src_uri := None;
     src_urlObject := None; src_schema := None |}.

Definition fetchFromInstalledPlugin (name version : string) (from : PluginProtocol)
  : IO PluginPackage :=
  pkg <- lift_read (readPackageJson
           (Path.join [ PIPCOOK_PLUGINS; "node_modules";
                        getPluginDirectory name version from; "package.json" ])) ;;
  match assignPackage options pkg (installed_source name from) with
  | Return pkg' => ret pkg'
  | Throw e => throw e
  end.

End Fetch.

(** ** Manifest after uninstall *)

(** [m'] keeps the other fields of [m], adds no dependency, and keeps every
    dependency whose name is not among [names]. *)
Definition manifest_frame (names : list string) (m m' : RootManifest) : Prop :=
  other_fields m' = other_fields m
  ∧ match dependencies m, dependencies m' with
    | None, None => True
    | Some deps, Some deps' =>
        (∀ k v, deps' !! k = Some v → deps !! k = Some v)
        ∧ (∀ k, k ∉ names → deps' !! k = deps !! k)
    | _, _ => False
    end.

(** The names of the entries of an argument of [uninstall]. *)
Definition names_of (pkgMeta : PkgMetaArg) : list string :=
  match pkgMeta with
  | One meta => [ meta_name meta ]
  | Many metas => map meta_name metas
  end.

(** ** Normal forms of paths *)

(** The characters of a string. *)
Abbreviation chars := String.list_ascii_of_string.

(** A segment that [Path.step] keeps as it is. *)
Definition plain (seg : string) : Prop :=
  seg ≠ "" ∧ seg ≠ "." ∧ seg ≠ ".." ∧ "/"%char ∉ String.list_ascii_of_string seg.

(** The stacks that [Path.step] builds: kept segments on top of the [..]
    segments that lead a relative path above its start. *)
Definition normal_stack (allow : bool) (st : list string) : Prop :=
  ∃ body k, st = body ++ replicate k ".." ∧ Forall plain body ∧ (allow = false → k = 0).

(** A segment as it stands in a normalised path. *)
Definition seg_ok (seg : string) : Prop := seg ≠ "" ∧ "/"%char ∉ String.list_ascii_of_string seg.

(** ** Outcome of a removal *)

(** What one entry or a whole batch does to the world: it resolves, the
    events it adds are removals, and its flag tells whether there are
    any. *)
Definition removal_outcome (c : IO (bool * RootManifest)) (w : World) : Prop :=
  ∃ b m' w' delta,
    c w = (Return (b, m'), w')
    ∧ trace w' = trace w ++ delta
    ∧ (b = true ↔ ∃ p, EvRemove p ∈ delta)
    ∧ (∀ e, e ∈ delta → ∃ p, e = EvRemove p)
    ∧ (b = false → w' = w ∧ delta = []).

(** ** Concrete inputs *)

Module SelectExample.

Definition manifest (version : string) : NpmPackage :=
  {| pkg_name := "plugin"; pkg_version := version;
     pkg_pipcook := Some (mkPipcook {[ "category" := "dataCollect" ]} None None);
     pkg_conda := None |}.

Definition metadata : NpmPackageMetadata :=
  {| dist_tags := {[ "latest" := "1.2.0"; "beta" := "2.0.0-beta" ]};
     versions := {[ "1.2.0" := manifest "1.2.0";
                    "2.0.0-beta" := manifest "2.0.0-beta" ]} |}.

Definition stable_only : NpmPackageMetadata :=
  {| dist_tags := {[ "latest" := "1.2.0" ]};
     versions := {[ "1.2.0" := manifest "1.2.0" ]} |}.

Definition request (version : option string) : PluginSource :=
  {| src_from := npm; src_name := "plugin";
     src_uri := Some "https://registry.npmjs.org/plugin";
     src_urlObject := None;
     src_schema := Some (mkSchema None "plugin" version) |}.

End SelectExample.

Module HttpExample.

(** A registry that answers a conditional request with 304, a plain
    request with 200 and a body, and any other URI with 404. *)
Definition registry (uri : string) (options : RequestPromiseOptions)
  : result Response :=
  if decide (uri = "https://registry.npmjs.org/plugin") then
    match opt_headers options with
    | Some _ => Return (mkResponse 304 (Some "abc") None "" "Not Modified")
    | None => Return (mkResponse 200 (Some "abc") (Some "Mon") "{}" "OK")
    end
  else Return (mkResponse 404 None None "" "Not Found").

Definition parse (text : string) : result string := Return text.
Definition failing_parse (text : string) : result string :=
  Throw (SyntaxError "Unexpected token").

Definition empty : LRU.t (HTTPCache string) := LRU.create HTTP_CACHE_LIMIT.

Definition warm : LRU.t (HTTPCache string) :=
  LRU.put "https://registry.npmjs.org/plugin"
          (mkCache (Some "abc") (Some "Mon") "{}") empty.

End HttpExample.

Module RuntimeExample.

Definition options : RuntimeOptions :=
  {| installDir := "/plugins"; datasetDir := "/datasets";
     componentDir := "/components"; npmRegistryPrefix := "" |}.

Definition production : Process :=
  {| NODE_ENV := Some "production"; dirname := "/app/dist";
     require_resolve := fun _ => None |}.

Definition testing : Process :=
  {| NODE_ENV := Some "test"; dirname := "/app/dist";
     require_resolve := fun _ => None |}.

Definition source : PluginSource :=
  {| src_from := fs; src_name := "/work/a"; src_uri := Some "/work/a";
     src_urlObject := None; src_schema := None |}.

Definition bare : PluginPackage :=
  {| pkg_name := "a"; pkg_version := "1"; pkg_pipcook := None; pkg_conda := None |}.

Definition plugin : PluginPackage :=
  {| pkg_name := "a"; pkg_version := "1";
     pkg_pipcook := Some (mkPipcook {[ "category" := "dataCollect" ]} None None);
     pkg_conda := None |}.

Definition nothing : World := {| files := ∅; trace := [] |}.

End RuntimeExample.

Module UninstallExample.

Definition a1 : PkgMeta := {| meta_name := "a"; meta_version := "1" |}.
Definition b1 : PkgMeta := {| meta_name := "b"; meta_version := "1" |}.


Definition manifest (deps : gmap string string) : RootManifest :=
  {| dependencies := Some deps; other_fields := {[ "name" := "plugins" ]} |}.

(** An install root where only [b] is installed. *)
Definition only_b : World :=
  {| files :=
       {[ "/plugins" := Dir;
          "/plugins/package.json" := JsonFile (manifest {[ "b" := "1"; "c" := "2" ]});
          "/plugins/node_modules" := Dir;
          "/plugins/node_modules/b" := Dir;
          "/plugins/node_modules/b/package.json" := TextFile "{}";
          "/plugins/node_modules/c" := Dir;
          "/plugins/conda_envs" := Dir;
          "/plugins/conda_envs/b@1" := Dir;
          "/plugins/conda_envs/b@1/requirements.txt" := TextFile "numpy" ]};
     trace := [] |}.

Definition after_b : World :=
  {| files :=
       {[ "/plugins" := Dir;
          "/plugins/package.json" := JsonFile (manifest {[ "c" := "2" ]});
          "/plugins/node_modules" := Dir;
          "/plugins/node_modules/c" := Dir;
          "/plugins/conda_envs" := Dir ]};
     trace :=
       [ EvRemove "/plugins/node_modules/b";
         EvRemove "/plugins/conda_envs/b@1";
         EvWriteJson "/plugins/package.json" (manifest {[ "c" := "2" ]}) ] |}.

(** An install root that holds the plugin [a], version 1, where the
    on-disk layout puts it: under its versioned directory name. *)
Definition versioned_a : World :=
  {| files :=
       {[ "/plugins" := Dir;
          "/plugins/package.json" := JsonFile (manifest {[ "a@1" := "npm:a@1" ]});
          "/plugins/node_modules" := Dir;
          "/plugins/node_modules/a@1" := Dir;
          "/plugins/node_modules/a@1/package.json" := TextFile "{}";
          "/plugins/conda_envs" := Dir;
          "/plugins/conda_envs/a@1" := Dir ]};
     trace := [] |}.

(** The same root with a second, unversioned directory of that name. *)
Definition both_a : World :=
  {| files := <[ "/plugins/node_modules/a" := Dir ]> (files versioned_a);
     trace := [] |}.

(** An install root where [a] is installed under its bare name. *)
Definition bare_a : World :=
  {| files :=
       {[ "/plugins" := Dir;
          "/plugins/package.json" := JsonFile (manifest {[ "a" := "1" ]});
          "/plugins/node_modules" := Dir;
          "/plugins/node_modules/a" := Dir ]};
     trace := [] |}.

Definition getPluginDirectory (name version : string) (from : PluginProtocol) : string :=
  match from with
  | npm => name +:+ "@" +:+ version
  | _ => name
  end.

(** A child process that exits with code 0 and leaves the files alone. *)
Definition child (command : string) (args : list string) (cwd : option string)
    (f : gmap string fsnode) : Z * gmap string fsnode := (0%Z, f).

(** A pip that exits with code 1 on the requirement bar==1.0 and with 0 on
    any other, and leaves the files alone. *)
Definition picky_child (command : string) (args : list string) (cwd : option string)
    (f : gmap string fsnode) : Z * gmap string fsnode :=
  if decide (last args = Some "bar==1.0") then (1%Z, f) else (0%Z, f).

Definition stringify (m : RootManifest) : string := "{}".

Definition version_of (v : string) : PluginPackage :=
  {| pkg_name := "a"; pkg_version := v;
     pkg_pipcook := Some (mkPipcook {[ "category" := "dataCollect" ]}
                            (Some RuntimeExample.source) None);
     pkg_conda := None |}.

Definition plain : InstallOptions := {| pyIndex := None; force := None |}.
Definition forced : InstallOptions := {| pyIndex := None; force := Some true |}.

End UninstallExample.

Module FetchExample.

(** A stand-in for [parsePluginName]: a path is a directory, a name that
    starts with git is a repository, anything else a registry name. *)
Definition parsePluginName (name : string) : result (PluginProtocol * option UrlObject) :=
  if startsWith "/" name then Return (fs, None)
  else if startsWith "git" name then Return (git, None)
  else Return (npm, None).

(** A stand-in for the [packageName] getter: the scope and the name. *)
Definition packageName (schema : NpmPackageNameSchema) : string :=
  match schema_scope schema with
  | Some scope => scope +:+ "/" +:+ schema_name schema
  | None => schema_name schema
  end.

Definition options : RuntimeOptions :=
  {| installDir := "/plugins"; datasetDir := "/datasets";
     componentDir := "/components";
     npmRegistryPrefix := "https://registry.npmjs.org/" |}.

Definition options_no_slash : RuntimeOptions :=
  {| installDir := "/plugins"; datasetDir := "/datasets";
     componentDir := "/components";
     npmRegistryPrefix := "https://registry.npmjs.org" |}.

(** A registry that knows the versions of [SelectExample.metadata]. *)
Definition JSON_parse (text : string) : result NpmPackageMetadata :=
  Return SelectExample.metadata.

Definition get (uri : string) (options : RequestPromiseOptions) : result Response :=
  Return (mkResponse 200 (Some "abc") (Some "Mon") "{}" "OK").

Definition cache : LRU.t (HTTPCache NpmPackageMetadata) := LRU.create HTTP_CACHE_LIMIT.

Definition fetchPackageJsonFromGit (remote head : string) : result PluginPackage :=
  Return RuntimeExample.plugin.

Definition readPackageJson (path : string) (f : gmap string fsnode)
  : result PluginPackage :=
  if decide (path = "/home/.pipcook/plugins/node_modules/a/package.json")
  then Return RuntimeExample.plugin
  else Throw (ENOENT path).

Definition download (url path : string) : IO unit := ret tt.

End FetchExample.

(** * Properties *)

(** ** Strings *)

Lemma startsWith_spec (p s : string) :
  startsWith p s = true ↔ ∃ rest, s = p +:+ rest.
Proof.
  revert s. induction p as [|a p IH]; intros s; simpl.
  - split; [intros _; by exists s | done].
  - destruct s as [|b s].
    + split; [done | intros [rest Hrest]; discriminate Hrest].
    + destruct (Ascii.eqb_spec a b) as [->|Hne].
      * rewrite IH. split; intros [rest Hrest]; exists rest.
        -- by rewrite Hrest.
        -- by injection Hrest.
      * split; [done | intros [rest Hrest]; injection Hrest; congruence].
Qed.

Lemma search_None (c : ascii) (s : string) :
  c ∉ String.list_ascii_of_string s → search c s = None.
Proof.
  induction s as [|a s IH]; simpl; intros Hnot; [done|].
  destruct (Ascii.eqb_spec a c) as [->|Hne].
  - exfalso. apply Hnot. left.
  - rewrite IH; [done|]. intros Hin. apply Hnot. by right.
Qed.

Lemma truthy_string_true (s : string) : truthy_string s = true ↔ s ≠ "".
Proof. destruct s; simpl; split; congruence. Qed.

(** ** selectNpmPackage *)

(** Closes a goal [v ∉ object_prototype_members] for a literal [v]. *)
Ltac not_among_members :=
  let Hin := fresh "Hin" in
  intros Hin;
  repeat (apply elem_of_cons in Hin as [Hin|Hin]; [discriminate Hin|]);
  by apply elem_of_nil in Hin.

Section SelectNpmPackage.

Variable metadata : NpmPackageMetadata.
Variable source : PluginSource.
Variable schema : NpmPackageNameSchema.
Hypothesis source_schema : src_schema source = Some schema.

Lemma select_beta_missing :
  schema_version schema = Some "beta" →
  dist_tags metadata !! "beta" = None →
  selectNpmPackage metadata source = Throw (TypeError (no_beta_message source)).
Proof using source_schema.
  intros Hv Hb. unfold selectNpmPackage. rewrite source_schema, Hv, Hb.
  by rewrite decide_True.
Qed.

Lemma select_beta (b : string) :
  schema_version schema = Some "beta" →
  dist_tags metadata !! "beta" = Some b →
  selectNpmPackage metadata source = Return (property (versions metadata) b).
Proof using source_schema.
  intros Hv Hb. unfold selectNpmPackage. rewrite source_schema, Hv, Hb.
  by rewrite decide_True.
Qed.

Lemma select_latest :
  schema_version schema = Some "latest" →
  selectNpmPackage metadata source
  = Return (property (versions metadata) (propKey (dist_tags metadata !! "latest"))).
Proof using source_schema.
  intros Hv. unfold selectNpmPackage. rewrite source_schema, Hv.
  rewrite decide_False by discriminate. by rewrite decide_True.
Qed.

Lemma select_explicit (v : string) :
  schema_version schema = Some v →
  v ≠ "beta" → v ≠ "latest" → v ≠ "" →
  selectNpmPackage metadata source = Return (property (versions metadata) v).
Proof using source_schema.
  intros Hv Hb Hl He. unfold selectNpmPackage. rewrite source_schema, Hv.
  rewrite !decide_False by congruence.
  simpl. by apply truthy_string_true in He as ->.
Qed.

Lemma select_default :
  truthy (schema_version schema) = false →
  selectNpmPackage metadata source
  = Return (property (versions metadata) (propKey (dist_tags metadata !! "latest"))).
Proof using source_schema.
  intros Hv. unfold selectNpmPackage. rewrite source_schema.
  destruct (schema_version schema) as [v|] eqn:Ev.
  - rewrite !decide_False; [by rewrite Hv| |]; intros [= ->]; discriminate Hv.
  - rewrite !decide_False by discriminate. by rewrite Hv.
Qed.

End SelectNpmPackage.

Lemma property_own {A : Type} (obj : gmap string A) (key : string) (a : A) :
  obj !! key = Some a → property obj key = Own a.
Proof. intros Hkey. unfold property. by rewrite Hkey. Qed.

Lemma property_absent {A : Type} (obj : gmap string A) (key : string) :
  obj !! key = None →
  property obj key
  = if bool_decide (key ∈ object_prototype_members) then Inherited key else Undefined.
Proof. intros Hkey. unfold property. by rewrite Hkey. Qed.

(** C1: manifest selection follows the ordered rule.  For a source that
    carries a name schema: (1) version [beta] without a [beta] dist-tag
    throws; (2) version [beta] or [latest] returns what the versions object
    has under the version the dist-tag names (a missing [latest] tag reads
    the key "undefined"); (3) any other non-empty version is read as it is,
    with no range matching; (4) no version returns what the object has under
    the version of the [latest] tag.  What the object has under a version it
    holds is the manifest stored there.  With tags latest = 1.2.0 and
    beta = 2.0.0-beta, a request for [beta] returns the manifest stored at
    2.0.0-beta. *)
Theorem selectNpmPackage_ordered_rule
    (metadata : NpmPackageMetadata) (source : PluginSource)
    (schema : NpmPackageNameSchema) :
  src_schema source = Some schema →
  (schema_version schema = Some "beta" →
   dist_tags metadata !! "beta" = None →
   selectNpmPackage metadata source = Throw (TypeError (no_beta_message source)))
  ∧ (schema_version schema = Some "beta" →
     ∀ b, dist_tags metadata !! "beta" = Some b →
          selectNpmPackage metadata source = Return (property (versions metadata) b))
  ∧ (schema_version schema = Some "latest" →
     selectNpmPackage metadata source
     = Return (property (versions metadata) (propKey (dist_tags metadata !! "latest"))))
  ∧ (∀ v, schema_version schema = Some v →
          v ≠ "beta" → v ≠ "latest" → v ≠ "" →
          selectNpmPackage metadata source = Return (property (versions metadata) v))
  ∧ (truthy (schema_version schema) = false →
     selectNpmPackage metadata source
     = Return (property (versions metadata) (propKey (dist_tags metadata !! "latest"))))
  ∧ (∀ key manifest, versions metadata !! key = Some manifest →
       property (versions metadata) key = Own manifest)
  ∧ (schema_version schema = Some "beta" →
     dist_tags metadata = {[ "latest" := "1.2.0"; "beta" := "2.0.0-beta" ]} →
     ∀ manifest, versions metadata !! "2.0.0-beta" = Some manifest →
       selectNpmPackage metadata source = Return (Own manifest)).
Proof.
  intros Hs. repeat split.
  - by apply select_beta_missing.
  - intros Hv b Hb. by eapply select_beta.
  - by apply select_latest.
  - intros v Hv ???. by eapply select_explicit.
  - by apply select_default.
  - intros key manifest. apply property_own.
  - intros Hv Ht manifest Hm.
    rewrite (select_beta metadata source schema Hs "2.0.0-beta" Hv) by (by rewrite Ht).
    by rewrite (property_own _ _ _ Hm).
Qed.

Lemma selectNpmPackage_ordered_rule_witness :
  selectNpmPackage SelectExample.metadata (SelectExample.request (Some "beta"))
  = Return (Own (SelectExample.manifest "2.0.0-beta"))
  ∧ selectNpmPackage SelectExample.stable_only (SelectExample.request (Some "beta"))
    = Throw (TypeError (no_beta_message (SelectExample.request (Some "beta"))))
  ∧ selectNpmPackage SelectExample.metadata (SelectExample.request (Some "1.2.0"))
    = Return (Own (SelectExample.manifest "1.2.0"))
  ∧ selectNpmPackage SelectExample.metadata (SelectExample.request None)
    = Return (Own (SelectExample.manifest "1.2.0")).
Proof.
  split; [|split; [|split]].
  - exact (proj2 (proj2 (proj2 (proj2 (proj2 (proj2
      (selectNpmPackage_ordered_rule SelectExample.metadata
         (SelectExample.request (Some "beta")) _ eq_refl))))))
      eq_refl eq_refl (SelectExample.manifest "2.0.0-beta") eq_refl).
  - exact (proj1
      (selectNpmPackage_ordered_rule SelectExample.stable_only
         (SelectExample.request (Some "beta")) _ eq_refl)
      eq_refl eq_refl).
  - exact (proj1 (proj2 (proj2 (proj2
      (selectNpmPackage_ordered_rule SelectExample.metadata
         (SelectExample.request (Some "1.2.0")) _ eq_refl))))
      "1.2.0" eq_refl ltac:(discriminate) ltac:(discriminate) ltac:(discriminate)).
  - exact (proj1 (proj2 (proj2 (proj2 (proj2
      (selectNpmPackage_ordered_rule SelectExample.metadata
         (SelectExample.request None) _ eq_refl)))))
      eq_refl).
Defined.

(** A name schema built by [getNameSchema] never carries the empty version:
    an empty version part is stored as [null]. *)
Lemma getNameSchema_version_nonempty (fullname : string) (schema : NpmPackageNameSchema) :
  getNameSchema fullname = Return schema →
  schema_version schema ≠ Some "".
Proof.
  unfold getNameSchema.
  assert (∀ scope f,
    (let '(name, version) := name_and_version f in
     Return {| schema_scope := scope; schema_name := name;
               schema_version := if truthy version then version else None |})
    = Return schema → schema_version schema ≠ Some "") as Hfin.
  { intros scope f. destruct (name_and_version f) as [name version].
    intros [= <-]. simpl. by destruct version as [[|]|]. }
  destruct fullname as [|a rest]; [apply Hfin|].
  destruct (decide (a = "@"%char)) as [->|Hne].
  - destruct (search _ _); [apply Hfin | discriminate].
  - intros H. eapply Hfin.
    destruct a as [[] [] [] [] [] [] [] []]; try exact H; by destruct Hne.
Qed.

(** C10, amended: an explicit version (not [beta], not [latest])
    that the versions object does not hold never makes the selection throw.
    The selection returns [undefined] when the version is not the name of a
    member that every object inherits; when it is one (constructor,
    toString, __proto__ and the like), the selection returns that member,
    which is neither [undefined] nor a manifest. *)
Theorem selectNpmPackage_absent_version
    (metadata : NpmPackageMetadata) (source : PluginSource)
    (schema : NpmPackageNameSchema) (v : string) :
  src_schema source = Some schema →
  schema_version schema = Some v →
  v ≠ "beta" → v ≠ "latest" → v ≠ "" →
  versions metadata !! v = None →
  (v ∉ object_prototype_members → selectNpmPackage metadata source = Return Undefined)
  ∧ (v ∈ object_prototype_members →
     selectNpmPackage metadata source = Return (Inherited v))
  ∧ ∀ e, selectNpmPackage metadata source ≠ Throw e.
Proof.
  intros Hs Hv Hb Hl He Habs.
  rewrite (select_explicit metadata source schema Hs v Hv Hb Hl He).
  rewrite (property_absent _ _ Habs).
  split; [|split].
  - intros Hout. by rewrite bool_decide_false.
  - intros Hin. by rewrite bool_decide_true.
  - discriminate.
Qed.

Lemma selectNpmPackage_absent_version_witness :
  selectNpmPackage SelectExample.metadata (SelectExample.request (Some "9.9.9"))
  = Return Undefined.
Proof.
  apply (proj1 (selectNpmPackage_absent_version SelectExample.metadata
           (SelectExample.request (Some "9.9.9")) (mkSchema None "plugin" (Some "9.9.9"))
           "9.9.9" eq_refl eq_refl ltac:(discriminate) ltac:(discriminate)
           ltac:(discriminate) ltac:(vm_compute; reflexivity))).
  not_among_members.
Defined.

(** C10, counterexample to [undefined] for every absent version: the
    versions object of the example does not hold the version [constructor],
    and the selection returns the inherited member of that name, not
    [undefined]. *)
Lemma selectNpmPackage_absent_version_counterexample :
  versions SelectExample.metadata !! "constructor" = None
  ∧ selectNpmPackage SelectExample.metadata (SelectExample.request (Some "constructor"))
    = Return (Inherited "constructor")
  ∧ Return (Inherited "constructor")
    ≠ Return (@Undefined NpmPackage).
Proof.
  split; [vm_compute; reflexivity|]. split; [vm_compute; reflexivity | discriminate].
Qed.

(** ** createRequirements *)

Lemma requirement_line_wildcard (k : string) : requirement_line k "*" = k.
Proof. reflexivity. Qed.

Lemma requirement_line_git (k v : string) :
  (∃ rest, v = "git+https://" +:+ rest) → requirement_line k v = v.
Proof.
  intros Hpre. unfold requirement_line.
  destruct (decide (v = "*")) as [->|_].
  - destruct Hpre as [rest Hrest]. discriminate Hrest.
  - by apply startsWith_spec in Hpre as ->.
Qed.

Lemma requirement_line_version (k v : string) :
  v ≠ "*" → (¬ ∃ rest, v = "git+https://" +:+ rest) →
  requirement_line k v = k +:+ "==" +:+ v.
Proof.
  intros Hstar Hpre. unfold requirement_line.
  rewrite decide_False by done.
  destruct (startsWith "git+https://" v) eqn:E; [|done].
  by apply startsWith_spec in E.
Qed.

(** C6: every pair (name, value) of the dependency mapping gives one
    requirement line, in order: the bare name for the value [*], the value
    itself when it starts with git+https://, and name==value otherwise; the
    three examples of the specification evaluate as stated. *)
Theorem createRequirements_lines
    (name : string) (deps : list (string * string)) :
  let lines := createRequirements name (mkConda (Some deps)) in
  length lines = length deps
  ∧ (∀ (i : nat) (k v : string), deps !! i = Some (k, v) →
       ∃ line, lines !! i = Some line
         ∧ (v = "*" → line = k)
         ∧ ((∃ rest, v = "git+https://" +:+ rest) → line = v)
         ∧ (v ≠ "*" → (¬ ∃ rest, v = "git+https://" +:+ rest) →
            line = k +:+ "==" +:+ v))
  ∧ createRequirements name (mkConda (Some [ ("numpy", "*") ])) = [ "numpy" ]
  ∧ createRequirements name (mkConda (Some [ ("foo", "git+https://x/y") ]))
    = [ "git+https://x/y" ]
  ∧ createRequirements name (mkConda (Some [ ("bar", "1.0") ])) = [ "bar==1.0" ].
Proof.
  unfold createRequirements; simpl. split; [by rewrite length_map|].
  split; [|done].
  intros i k v Hi. exists (requirement_line k v). split.
  - by rewrite list_lookup_fmap, Hi.
  - split; [intros ->; apply requirement_line_wildcard|].
    split; [apply requirement_line_git | apply requirement_line_version].
Qed.

Lemma createRequirements_lines_witness :
  createRequirements "plugin@1.0.0"
    (mkConda (Some [ ("numpy", "*"); ("foo", "git+https://x/y"); ("bar", "1.0") ]))
  !! 2%nat = Some "bar==1.0".
Proof.
  destruct (proj1 (proj2 (createRequirements_lines "plugin@1.0.0"
              [ ("numpy", "*"); ("foo", "git+https://x/y"); ("bar", "1.0") ]))
              2%nat "bar" "1.0" eq_refl)
    as (line & Hline & _ & _ & Hver).
  rewrite Hline. f_equal. apply Hver.
  - discriminate.
  - intros [rest Hrest]. discriminate Hrest.
Defined.

(** ** getNameSchema *)

(** C7: the identifier @scope/name@1.2.3 parses to the scope @scope, the
    name [name] and the version 1.2.3; an identifier that starts with [@]
    and holds no slash is rejected with a TypeError. *)
Theorem getNameSchema_scoped :
  getNameSchema "@scope/name@1.2.3"
  = Return {| schema_scope := Some "@scope";
              schema_name := "name";
              schema_version := Some "1.2.3" |}
  ∧ ∀ rest : string,
      "/"%char ∉ String.list_ascii_of_string rest →
      getNameSchema (String "@"%char rest)
      = Throw (TypeError (invalid_name_message (String "@"%char rest))).
Proof.
  split; [reflexivity|].
  intros rest Hrest. unfold getNameSchema.
  rewrite search_None; [done|].
  simpl. intros Hin. apply elem_of_cons in Hin as [Heq|Hin]; [discriminate Heq | done].
Qed.

Lemma getNameSchema_scoped_witness :
  getNameSchema "@scope" = Throw (TypeError "invalid package name: @scope").
Proof.
  apply (proj2 getNameSchema_scoped "scope").
  vm_compute. intros Hin.
  repeat (apply elem_of_cons in Hin as [Heq|Hin]; [discriminate Heq|]).
  by apply elem_of_nil in Hin.
Defined.

(** ** The cache and requestHttpGetWithCache *)

Section LRUProps.

Context {V : Type}.
Implicit Types (c : LRU.t V) (k : string) (v : V).

Lemma lru_get_value k c : fst (LRU.get k c) = LRU.store c !! k.
Proof. unfold LRU.get. by destruct (LRU.store c !! k). Qed.

Lemma lru_get_store k c : LRU.store (snd (LRU.get k c)) = LRU.store c.
Proof. unfold LRU.get. by destruct (LRU.store c !! k). Qed.

Lemma lru_put_lookup k v c : LRU.store (LRU.put k v c) !! k = Some v.
Proof.
  unfold LRU.put. destruct (LRU.store c !! k); simpl; apply lookup_insert_eq.
Qed.

Lemma lru_put_most_recent k v c : head (LRU.order (LRU.put k v c)) = Some k.
Proof. unfold LRU.put, LRU.touch. by destruct (LRU.store c !! k). Qed.

End LRUProps.

Section HttpCacheProps.

Context {JSON C : Type} `{!CacheOps C (HTTPCache JSON)}.
Variable JSON_parse : string → result JSON.
Variable JSON_truthy : JSON → bool.
Variable get : string → RequestPromiseOptions → result Response.

Variable uri : string.
Variable cache : C.
Variable resp : Response.
Hypothesis responded :
  get uri (request_options JSON JSON_truthy (fst (cache_get uri cache))) = Return resp.

Lemma request_200 (b : JSON) :
  resp_statusCode resp = 200%Z →
  JSON_parse (resp_body resp) = Return b →
  requestHttpGetWithCache JSON JSON_parse JSON_truthy get uri cache
  = (Return b,
     cache_put uri (mkCache (resp_etag resp) (resp_last_modified resp) b)
               (snd (cache_get uri cache))).
Proof using responded.
  intros Hs Hb. unfold requestHttpGetWithCache.
  destruct (cache_get uri cache) as [cached cache1]; simpl in *.
  rewrite responded. rewrite decide_True by done. by rewrite Hb.
Qed.

Lemma request_304 (c : HTTPCache JSON) :
  resp_statusCode resp = 304%Z →
  fst (cache_get uri cache) = Some c →
  requestHttpGetWithCache JSON JSON_parse JSON_truthy get uri cache
  = (Return (body c), snd (cache_get uri cache)).
Proof using responded.
  intros Hs Hc. unfold requestHttpGetWithCache.
  destruct (cache_get uri cache) as [cached cache1]; simpl in *. subst cached.
  rewrite responded. rewrite Hs.
  rewrite decide_False by done. by rewrite decide_True by done.
Qed.

Lemma request_other :
  resp_statusCode resp ≠ 200%Z →
  resp_statusCode resp ≠ 304%Z →
  requestHttpGetWithCache JSON JSON_parse JSON_truthy get uri cache
  = (Throw (TypeError ""), snd (cache_get uri cache)).
Proof using responded.
  intros H200 H304. unfold requestHttpGetWithCache.
  destruct (cache_get uri cache) as [cached cache1]; simpl in *.
  rewrite responded. by rewrite !decide_False by done.
Qed.

End HttpCacheProps.

(** C2: the cached fetch, by the status of the response to the request it
    sends, for any cache with the operations [get] and [put].  On 200 with a
    body that parses, the parsed body is returned and the entry (etag,
    lastModified, body) is put in the cache under the URI.  On 304, when the
    cache answered [get] with an entry, the body of that entry is returned,
    whatever the parser would do (it is not called), and nothing is put.  On
    any other status a TypeError is thrown, and its message is empty
    whatever the status text of the response: the code reads [resp.message],
    which the response does not have, and not [resp.statusMessage]. *)
Theorem requestHttpGetWithCache_by_status
    {JSON C : Type} `{!CacheOps C (HTTPCache JSON)} (JSON_truthy : JSON → bool)
    (get : string → RequestPromiseOptions → result Response)
    (uri : string) (cache : C) (resp : Response) :
  let cached := fst (cache_get uri cache) in
  let cache1 := snd (cache_get uri cache) in
  get uri (request_options JSON JSON_truthy cached) = Return resp →
  (resp_statusCode resp = 200%Z →
   ∀ (JSON_parse : string → result JSON) (b : JSON),
     JSON_parse (resp_body resp) = Return b →
     requestHttpGetWithCache JSON JSON_parse JSON_truthy get uri cache
     = (Return b,
        cache_put uri (mkCache (resp_etag resp) (resp_last_modified resp) b) cache1))
  ∧ (resp_statusCode resp = 304%Z →
     ∀ c, cached = Some c →
     ∀ (JSON_parse : string → result JSON),
       requestHttpGetWithCache JSON JSON_parse JSON_truthy get uri cache
       = (Return (body c), cache1))
  ∧ (resp_statusCode resp ≠ 200%Z →
     resp_statusCode resp ≠ 304%Z →
     ∀ (JSON_parse : string → result JSON),
       requestHttpGetWithCache JSON JSON_parse JSON_truthy get uri cache
       = (Throw (TypeError ""), cache1)
       ∧ (resp_statusMessage resp ≠ "" →
          requestHttpGetWithCache JSON JSON_parse JSON_truthy get uri cache
          ≠ (Throw (TypeError (resp_statusMessage resp)), cache1))).
Proof.
  intros cached cache1 Hresp. split; [|split].
  - intros Hs parse b Hb.
    exact (request_200 parse JSON_truthy get uri cache resp Hresp b Hs Hb).
  - intros Hs c Hc parse.
    exact (request_304 parse JSON_truthy get uri cache resp Hresp c Hs Hc).
  - intros H200 H304 parse.
    rewrite (request_other parse JSON_truthy get uri cache resp Hresp H200 H304).
    split; [done|]. intros Hne [= Heq]. by apply Hne.
Qed.

Lemma requestHttpGetWithCache_by_status_witness :
  requestHttpGetWithCache string HttpExample.parse truthy_string HttpExample.registry
    "https://registry.npmjs.org/plugin" HttpExample.empty
  = (Return "{}", HttpExample.warm)
  ∧ requestHttpGetWithCache string HttpExample.failing_parse truthy_string
      HttpExample.registry "https://registry.npmjs.org/plugin" HttpExample.warm
    = (Return "{}", HttpExample.warm)
  ∧ requestHttpGetWithCache string HttpExample.parse truthy_string HttpExample.registry
      "https://registry.npmjs.org/missing" HttpExample.warm
    = (Throw (TypeError ""), HttpExample.warm).
Proof.
  split; [|split].
  - exact (proj1 (requestHttpGetWithCache_by_status truthy_string HttpExample.registry
             "https://registry.npmjs.org/plugin" HttpExample.empty
             (mkResponse 200 (Some "abc") (Some "Mon") "{}" "OK") eq_refl)
           eq_refl HttpExample.parse "{}" eq_refl).
  - exact (proj1 (proj2 (requestHttpGetWithCache_by_status truthy_string HttpExample.registry
             "https://registry.npmjs.org/plugin" HttpExample.warm
             (mkResponse 304 (Some "abc") None "" "Not Modified") eq_refl))
           eq_refl (mkCache (Some "abc") (Some "Mon") "{}") eq_refl
           HttpExample.failing_parse).
  - exact (proj1 (proj2 (proj2 (requestHttpGetWithCache_by_status truthy_string
             HttpExample.registry
             "https://registry.npmjs.org/missing" HttpExample.warm
             (mkResponse 404 None None "" "Not Found") eq_refl))
           ltac:(discriminate) ltac:(discriminate) HttpExample.parse)).
Defined.

(** ** validAndAssign *)

(** C8: a package without the [pipcook] field makes validate-and-assign
    throw, except when NODE_ENV is [test]: then a warning is printed and the
    package is returned as it came.  A package with the field is returned
    with the source and with the two target paths, which are joined from the
    install directory, the name and the version; nothing else changes. *)
Theorem validAndAssign_cases
    (options : RuntimeOptions) (process : Process)
    (pkg : PluginPackage) (source : PluginSource) (w : World) :
  (pkg_pipcook pkg = None → NODE_ENV process ≠ Some "test" →
   validAndAssign options process pkg source w
   = (Throw (TypeError invalid_plugin_message), w))
  ∧ (pkg_pipcook pkg = None → NODE_ENV process = Some "test" →
     validAndAssign options process pkg source w
     = (Return pkg, emit (EvWarn skip_warning) w))
  ∧ (∀ meta, pkg_pipcook pkg = Some meta →
     validAndAssign options process pkg source w
     = (Return {| pkg_name := pkg_name pkg;
                  pkg_version := pkg_version pkg;
                  pkg_pipcook :=
                    Some {| pipcook_declared := pipcook_declared meta;
                            pipcook_source := Some source;
                            pipcook_target :=
                              Some {| PYTHONPATH :=
                                        Path.join
                                          [ installDir options;
                                            "conda_envs/" +:+ pkg_name pkg +:+ "@"
                                              +:+ pkg_version pkg;
                                            "lib/python3.7/site-packages" ];
                                      DESTPATH :=
                                        Path.join
                                          [ installDir options;
                                            "node_modules/" +:+ pkg_name pkg +:+ "@"
                                              +:+ pkg_version pkg ] |} |};
                  pkg_conda := pkg_conda pkg |}, w)).
Proof.
  unfold validAndAssign, validPackage, assignPackage. repeat split.
  - intros -> Henv. by rewrite decide_False.
  - intros -> Henv. by rewrite decide_True.
  - by intros meta ->.
Qed.

Lemma validAndAssign_cases_witness :
  validAndAssign RuntimeExample.options RuntimeExample.production
    RuntimeExample.bare RuntimeExample.source RuntimeExample.nothing
  = (Throw (TypeError invalid_plugin_message), RuntimeExample.nothing)
  ∧ validAndAssign RuntimeExample.options RuntimeExample.testing
      RuntimeExample.bare RuntimeExample.source RuntimeExample.nothing
    = (Return RuntimeExample.bare, emit (EvWarn skip_warning) RuntimeExample.nothing)
  ∧ validAndAssign RuntimeExample.options RuntimeExample.production
      RuntimeExample.plugin RuntimeExample.source RuntimeExample.nothing
    = (Return {| pkg_name := "a"; pkg_version := "1";
                 pkg_pipcook :=
                   Some {| pipcook_declared := {[ "category" := "dataCollect" ]};
                           pipcook_source := Some RuntimeExample.source;
                           pipcook_target :=
                             Some {| PYTHONPATH :=
                                       "/plugins/conda_envs/a@1/lib/python3.7/site-packages";
                                     DESTPATH := "/plugins/node_modules/a@1" |} |};
                 pkg_conda := None |}, RuntimeExample.nothing).
Proof.
  split; [|split].
  - exact (proj1 (validAndAssign_cases RuntimeExample.options RuntimeExample.production
             RuntimeExample.bare RuntimeExample.source RuntimeExample.nothing)
           eq_refl ltac:(discriminate)).
  - exact (proj1 (proj2 (validAndAssign_cases RuntimeExample.options RuntimeExample.testing
             RuntimeExample.bare RuntimeExample.source RuntimeExample.nothing))
           eq_refl eq_refl).
  - exact (proj2 (proj2 (validAndAssign_cases RuntimeExample.options
             RuntimeExample.production RuntimeExample.plugin RuntimeExample.source
             RuntimeExample.nothing))
           _ eq_refl).
Defined.

(** ** isInstalled, uninstall *)

Section UninstallProps.

Variable options : RuntimeOptions.

Lemma isInstalled_eq (name : string) (w : World) :
  isInstalled options name w
  = (Return (bool_decide (is_Some
       (files w !! Path.canon (installDir options +:+ "/node_modules/" +:+ name)))), w).
Proof. reflexivity. Qed.

Lemma removePkg_skip (name version : string) (m : RootManifest) (w : World) :
  fst (isInstalled options name w) = Return false →
  removePkg options name version m w = (Return (false, m), w).
Proof.
  rewrite isInstalled_eq. simpl. intros [= Hb].
  unfold removePkg, bind. rewrite isInstalled_eq, Hb. reflexivity.
Qed.

Lemma removePkg_remove (name version : string) (m : RootManifest) (w : World) :
  fst (isInstalled options name w) = Return true →
  ∃ w', removePkg options name version m w
        = (Return (true, delete_dependency name m), w')
      ∧ trace w'
        = trace w
          ++ [ EvRemove (Path.join [ installDir options; "node_modules"; name ]);
               EvRemove (Path.join [ installDir options; "conda_envs";
                                     name +:+ "@" +:+ version ]) ].
Proof.
  rewrite isInstalled_eq. simpl. intros [= Hb].
  unfold removePkg, bind. rewrite isInstalled_eq, Hb. simpl.
  eexists. split; [reflexivity|]. simpl. by rewrite <- app_assoc.
Qed.

Lemma isInstalled_decided (name : string) (w : World) :
  fst (isInstalled options name w) = Return true
  ∨ fst (isInstalled options name w) = Return false.
Proof. rewrite isInstalled_eq. simpl. destruct (bool_decide _); auto. Qed.

Lemma removePkg_outcome (name version : string) (m : RootManifest) (w : World) :
  removal_outcome (removePkg options name version m) w.
Proof.
  destruct (isInstalled_decided name w) as [Hin|Hout].
  - destruct (removePkg_remove name version m w Hin) as (w' & Heq & Htr).
    exists true, (delete_dependency name m), w'. eexists.
    split; [exact Heq|]. split; [exact Htr|]. split; [|split].
    + split; [intros _|done]. eexists. left.
    + intros e He. apply elem_of_cons in He as [->|He]; [by eexists|].
      apply elem_of_cons in He as [->|He]; [by eexists|]. by apply elem_of_nil in He.
    + discriminate.
  - exists false, m, w, []. rewrite (removePkg_skip name version m w Hout).
    split; [done|]. split; [by rewrite app_nil_r|]. split; [|split].
    + split; [discriminate|]. intros [p Hp]. by apply elem_of_nil in Hp.
    + intros e He. by apply elem_of_nil in He.
    + done.
Qed.

Lemma removePkgs_outcome (metas : list PkgMeta) :
  ∀ (success : bool) (m : RootManifest) (w : World),
  ∃ b m' w' delta,
    removePkgs options metas success m w = (Return (b, m'), w')
    ∧ trace w' = trace w ++ delta
    ∧ (b = true ↔ success = true ∨ ∃ p, EvRemove p ∈ delta)
    ∧ (∀ e, e ∈ delta → ∃ p, e = EvRemove p)
    ∧ (b = false → w' = w ∧ delta = []).
Proof.
  induction metas as [|meta rest IH]; intros success m w.
  - exists success, m, w, []. simpl. unfold ret.
    split; [done|]. split; [by rewrite app_nil_r|]. split; [|split].
    + split; [by left|]. intros [->|[p Hp]]; [done|]. by apply elem_of_nil in Hp.
    + intros e He. by apply elem_of_nil in He.
    + done.
  - simpl. unfold bind.
    destruct (removePkg_outcome (meta_name meta) (meta_version meta) m w)
      as (b1 & m1 & w1 & d1 & Heq1 & Htr1 & Hb1 & Hrm1 & Hno1).
    rewrite Heq1. simpl.
    destruct (IH (if b1 then true else success) m1 w1)
      as (b & m' & w' & d & Heq & Htr & Hb & Hrm & Hno).
    exists b, m', w', (d1 ++ d). split; [exact Heq|].
    split; [by rewrite Htr, Htr1, app_assoc|]. split; [|split].
    + rewrite Hb. split.
      * intros [Hs|[p Hp]].
        -- destruct b1; [|by left]. right.
           destruct (proj1 Hb1 eq_refl) as [p Hp]. exists p.
           apply elem_of_app. by left.
        -- right. exists p. apply elem_of_app. by right.
      * intros [->|[p Hp]]; [left; by destruct b1|].
        apply elem_of_app in Hp as [Hp|Hp].
        -- left. assert (b1 = true) as -> by (apply Hb1; eauto). done.
        -- right. eauto.
    + intros e He. apply elem_of_app in He as [He|He]; eauto.
    + intros ->. destruct (Hno eq_refl) as [-> ->].
      destruct b1.
      * exfalso. assert (false = true) by (apply Hb; by left). done.
      * destruct (Hno1 eq_refl) as [-> ->]. done.
Qed.

Lemma removePkgs_removal_outcome (metas : list PkgMeta) (m : RootManifest) (w : World) :
  removal_outcome (removePkgs options metas false m) w.
Proof.
  destruct (removePkgs_outcome metas false m w)
    as (b & m' & w' & d & Heq & Htr & Hb & Hrm & Hno).
  exists b, m', w', d. repeat (split; [done|]). split; [|done].
  rewrite Hb. split; [intros [?|?]; done | by right].
Qed.

Lemma writeJson_eq (p : string) (data : RootManifest) (w : World) :
  writeJson p data w
  = match open_error p (files w) with
    | Some e => (Throw e, w)
    | None =>
        (Return tt,
         emit (EvWriteJson p data)
           (set_files (<[Path.canon p := JsonFile data]> (files w)) w))
    end.
Proof. reflexivity. Qed.

(** [uninstall] unfolded: the manifest read, the removals, the write. *)
Lemma uninstall_eq (pkgMeta : PkgMetaArg) (w : World) :
  uninstall options pkgMeta w
  = match files w !! Path.canon (manifest_path options) with
    | Some (JsonFile m) =>
        match remove_entries options pkgMeta m w with
        | (Return (true, m'), w0) =>
            match open_error (manifest_path options) (files w0) with
            | Some e => (Throw e, w0)
            | None =>
                (Return true,
                 emit (EvWriteJson (manifest_path options) m')
                   (set_files (<[Path.canon (manifest_path options) := JsonFile m']>
                                 (files w0)) w0))
            end
        | (Return (false, _), w0) => (Return false, w0)
        | (Throw e, w0) => (Throw e, w0)
        end
    | Some (TextFile _) =>
        (Throw (SyntaxError (manifest_path options +:+ ": Unexpected token in JSON")), w)
    | Some Dir => (Throw EISDIR, w)
    | None => (Throw (ENOENT (manifest_path options)), w)
    end.
Proof.
  unfold uninstall, bind at 1 2, readJson, remove_entries.
  destruct (files w !! Path.canon (manifest_path options)) as [[| |m]|]; try reflexivity.
  assert (∀ c : IO (bool * RootManifest),
    (let (r, w') := c w in
     match r with
     | Return a =>
         ((if fst a then writeJson (manifest_path options) (snd a) else ret tt);;;
          ret (fst a))%io w'
     | Throw e => (Throw e, w')
     end)
    = match c w with
      | (Return (true, m'), w0) =>
          match open_error (manifest_path options) (files w0) with
          | Some e => (Throw e, w0)
          | None =>
              (Return true,
               emit (EvWriteJson (manifest_path options) m')
                 (set_files (<[Path.canon (manifest_path options) := JsonFile m']>
                               (files w0)) w0))
          end
      | (Return (false, _), w0) => (Return false, w0)
      | (Throw e, w0) => (Throw e, w0)
      end) as Hrun.
  { intros c. destruct (c w) as [[[[] m']|e] w0]; try reflexivity.
    cbn [fst snd]. unfold bind. rewrite writeJson_eq.
    by destruct (open_error (manifest_path options) (files w0)). }
  destruct pkgMeta; apply Hrun.
Qed.

Lemma remove_entries_outcome (pkgMeta : PkgMetaArg) (m : RootManifest) (w : World) :
  removal_outcome (remove_entries options pkgMeta m) w.
Proof.
  destruct pkgMeta; [apply removePkg_outcome | apply removePkgs_removal_outcome].
Qed.


End UninstallProps.




(** C9: the installed check is the existence of installDir/node_modules/name
    and of nothing else: worlds that agree on that one path give the same
    answer.  Hence packages of one name and any versions take the same way
    through the short-circuit of [install], and [removePkg] skips a name
    under one version exactly when it skips it under any other. *)
Theorem installed_check_ignores_version
    (options : RuntimeOptions) (process : Process)
    (getPluginDirectory : string → string → PluginProtocol → string)
    (child : string → list string → option string → gmap string fsnode
             → Z * gmap string fsnode)
    (stringify : RootManifest → string) :
  (∀ name w,
     isInstalled options name w
     = pathExists (installDir options +:+ "/node_modules/" +:+ name) w)
  ∧ (∀ name w1 w2,
       files w1 !! Path.canon (installDir options +:+ "/node_modules/" +:+ name)
       = files w2 !! Path.canon (installDir options +:+ "/node_modules/" +:+ name) →
       fst (isInstalled options name w1) = fst (isInstalled options name w2))
  ∧ (∀ pkg1 pkg2 opts w,
       pkg_name pkg1 = pkg_name pkg2 →
       force opts ≠ Some true →
       fst (isInstalled options (pkg_name pkg1) w) = Return true →
       install options process getPluginDirectory child stringify pkg1 opts w
       = (Return true, w)
       ∧ install options process getPluginDirectory child stringify pkg2 opts w
         = (Return true, w))
  ∧ (∀ name version1 version2 m w,
       removePkg options name version1 m w = (Return (false, m), w)
       ↔ removePkg options name version2 m w = (Return (false, m), w)).
Proof.
  assert (∀ pkg opts w,
    force opts ≠ Some true →
    fst (isInstalled options (pkg_name pkg) w) = Return true →
    install options process getPluginDirectory child stringify pkg opts w
    = (Return true, w)) as Hshort.
  { intros pkg opts w Hf. rewrite isInstalled_eq. simpl. intros [= Hb].
    unfold install, bind. rewrite decide_False by done. simpl.
    rewrite Hb. by rewrite bool_decide_false. }
  assert (∀ name version m w,
    removePkg options name version m w = (Return (false, m), w)
    ↔ fst (isInstalled options name w) = Return false) as Hskip.
  { intros name version m w. split; [|apply removePkg_skip].
    intros Heq. destruct (isInstalled_decided options name w) as [Hin|Hout]; [|done].
    destruct (removePkg_remove options name version m w Hin) as (w' & Heq' & _).
    rewrite Heq in Heq'. discriminate Heq'. }
  split; [done|]. split; [|split].
  - intros name w1 w2 Hsame. rewrite !isInstalled_eq. simpl. by rewrite Hsame.
  - intros pkg1 pkg2 opts w Hname Hf Hin. split; apply Hshort; try done.
    by rewrite <- Hname.
  - intros name version1 version2 m w. by rewrite !Hskip.
Qed.

Lemma installed_check_ignores_version_witness :
  install RuntimeExample.options RuntimeExample.production
    UninstallExample.getPluginDirectory UninstallExample.child UninstallExample.stringify
    (UninstallExample.version_of "1") UninstallExample.plain UninstallExample.bare_a
  = (Return true, UninstallExample.bare_a)
  ∧ install RuntimeExample.options RuntimeExample.production
      UninstallExample.getPluginDirectory UninstallExample.child UninstallExample.stringify
      (UninstallExample.version_of "2") UninstallExample.plain UninstallExample.bare_a
    = (Return true, UninstallExample.bare_a).
Proof.
  apply (proj1 (proj2 (proj2 (installed_check_ignores_version
           RuntimeExample.options RuntimeExample.production
           UninstallExample.getPluginDirectory UninstallExample.child
           UninstallExample.stringify)))
         (UninstallExample.version_of "1") (UninstallExample.version_of "2")
         UninstallExample.plain UninstallExample.bare_a).
  - reflexivity.
  - discriminate.
  - vm_compute. reflexivity.
Defined.

(** ** install *)

Section InstallProps.

Variable options : RuntimeOptions.
Variable process : Process.
Variable getPluginDirectory : string → string → PluginProtocol → string.
Variable child :
  string → list string → option string → gmap string fsnode → Z * gmap string fsnode.
Variable stringify : RootManifest → string.


Lemma install_forced (pkg : PluginPackage) (opts : InstallOptions) (w : World) :
  force opts = Some true →
  install options process getPluginDirectory child stringify pkg opts w
  = bind (uninstall options
            (One {| meta_name := pkg_name pkg; meta_version := pkg_version pkg |}))
         (fun _ => provision options process getPluginDirectory child stringify pkg opts)
         w.
Proof.
  intros Hf. unfold install. rewrite decide_True by done.
  rewrite bool_decide_true by done. unfold bind at 1 2 4.
  destruct (uninstall options _ w) as [[b|e] w']; [|done].
  unfold ret at 1. unfold bind. rewrite isInstalled_eq.
  by rewrite andb_false_r.
Qed.


End InstallProps.



(** ** uninstall and the install target *)

(** C3: on an install root that holds plugin [a], version 1, in its module
    install target node_modules/a@1 (the same path that [assignPackage]
    computes as DESTPATH), [uninstall] of that entry finds nothing under
    node_modules/a, returns false and removes nothing.  When a directory
    node_modules/a exists as well, [uninstall] removes that one and the
    interpreter environment conda_envs/a@1, and the install target
    node_modules/a@1 stays. *)
Theorem uninstall_misses_install_target :
  DESTPATH (target_of RuntimeExample.options "a" "1") = "/plugins/node_modules/a@1"
  ∧ uninstall RuntimeExample.options (One UninstallExample.a1) UninstallExample.versioned_a
    = (Return false, UninstallExample.versioned_a)
  ∧ files UninstallExample.versioned_a !! "/plugins/node_modules/a@1" = Some Dir
  ∧ ∃ w',
      uninstall RuntimeExample.options (One UninstallExample.a1) UninstallExample.both_a
      = (Return true, w')
      ∧ files w' !! "/plugins/node_modules/a" = None
      ∧ files w' !! "/plugins/conda_envs/a@1" = None
      ∧ files w' !! "/plugins/node_modules/a@1" = Some Dir
      ∧ files w' !! "/plugins/node_modules/a@1/package.json" = Some (TextFile "{}").
Proof.
  split; [reflexivity|]. split; [vm_compute; reflexivity|].
  split; [vm_compute; reflexivity|].
  eexists. split; [vm_compute; reflexivity|].
  repeat split; vm_compute; reflexivity.
Qed.

(** * Further properties *)

(** ** Strings *)

Lemma search_app (c : ascii) (a b : string) :
  c ∉ chars a →
  search c (a +:+ String c b) = Some (String.length a).
Proof.
  induction a as [|x a IH]; simpl; intros Hnot.
  - by rewrite Ascii.eqb_refl.
  - destruct (Ascii.eqb_spec x c) as [->|Hne].
    + exfalso. apply Hnot. left.
    + rewrite IH; [done|]. intros Hin. apply Hnot. by right.
Qed.

Lemma search_Some_split (c : ascii) (s : string) (n : nat) :
  search c s = Some n →
  s = substr_to n s +:+ String c (substr_from (n + 1) s)
  ∧ c ∉ chars (substr_to n s).
Proof.
  revert n. induction s as [|x s IH]; simpl; intros n Hs; [discriminate|].
  destruct (Ascii.eqb_spec x c) as [->|Hne].
  - injection Hs as <-. simpl. split; [done | apply not_elem_of_nil].
  - destruct (search c s) as [i|] eqn:Es; [|discriminate].
    injection Hs as <-. destruct (IH i eq_refl) as [Heq Hnot]. simpl. split.
    + change (String x s
              = String x (substr_to i s +:+ String c (substr_from (i + 1) s))).
      by rewrite <- Heq.
    + intros Hin. apply elem_of_cons in Hin as [Hx|Hin]; [congruence | done].
Qed.

Lemma search_is_Some (c : ascii) (s : string) :
  c ∈ chars s → is_Some (search c s).
Proof.
  induction s as [|x s IH]; simpl; intros Hin; [by apply elem_of_nil in Hin|].
  destruct (Ascii.eqb_spec x c) as [->|Hne]; [by eexists|].
  apply elem_of_cons in Hin as [Hx|Hin]; [congruence|].
  destruct (IH Hin) as [i ->]. by eexists.
Qed.

Lemma split_no_sep (c : ascii) (s : string) :
  c ∉ chars s → split c s = (s, []).
Proof.
  induction s as [|x s IH]; simpl; intros Hnot; [done|].
  rewrite IH by (intros Hin; apply Hnot; by right).
  destruct (Ascii.eqb_spec x c) as [->|Hne]; [|done].
  exfalso. apply Hnot. left.
Qed.

Lemma split_app (c : ascii) (a b : string) :
  c ∉ chars a →
  split c (a +:+ String c b) = (a, fst (split c b) :: snd (split c b)).
Proof.
  induction a as [|x a IH]; simpl; intros Hnot.
  - rewrite Ascii.eqb_refl. by destruct (split c b).
  - rewrite IH by (intros Hin; apply Hnot; by right).
    destruct (Ascii.eqb_spec x c) as [->|Hne]; [|done].
    exfalso. apply Hnot. left.
Qed.

Lemma split_parts_no_sep (c : ascii) (s : string) :
  (c ∉ chars (fst (split c s)))
  ∧ Forall (fun part => c ∉ chars part) (snd (split c s)).
Proof.
  induction s as [|x s [IHh IHt]]; simpl.
  - split; [apply not_elem_of_nil | constructor].
  - destruct (split c s) as [hd tl]; simpl in *.
    destruct (Ascii.eqb_spec x c) as [->|Hne]; simpl.
    + split; [apply not_elem_of_nil | by constructor].
    + split; [|done]. intros Hin.
      apply elem_of_cons in Hin as [Hx|Hin]; [congruence | done].
Qed.

(** ** getNameSchema *)

Lemma getNameSchema_scoped_eq (rest : string) :
  getNameSchema (String "@"%char rest)
  = match search "/"%char (String "@"%char rest) with
    | None => Throw (TypeError (invalid_name_message (String "@"%char rest)))
    | Some scopeEnds =>
        Return (schema_of (Some (substr_to scopeEnds (String "@"%char rest)))
                          (substr_from (scopeEnds + 1) (String "@"%char rest)))
    end.
Proof.
  unfold getNameSchema, schema_of. destruct (search _ _); [|done].
  by destruct (name_and_version _).
Qed.

Lemma getNameSchema_unscoped_eq (fullname : string) :
  (∀ rest, fullname ≠ String "@"%char rest) →
  getNameSchema fullname = Return (schema_of None fullname).
Proof.
  intros Hno. unfold getNameSchema, schema_of.
  destruct fullname as [|a rest]; [by destruct (name_and_version _)|].
  destruct (decide (a = "@"%char)) as [->|Hne]; [by destruct (Hno rest)|].
  destruct (name_and_version _).
  destruct a as [[] [] [] [] [] [] [] []]; try reflexivity; by destruct Hne.
Qed.

(** X1: [getNameSchema] throws exactly on the names that start with [@] and
    hold no slash, and then with the TypeError that quotes the name; every
    other string, the empty one included, is parsed. *)
Theorem getNameSchema_throws_iff (fullname : string) (e : error) :
  getNameSchema fullname = Throw e
  ↔ (∃ rest, fullname = String "@"%char rest ∧ "/"%char ∉ chars rest)
    ∧ e = TypeError (invalid_name_message fullname).
Proof.
  split.
  - intros Hthrow.
    assert ((∃ rest, fullname = String "@"%char rest)
            ∨ ∀ rest, fullname ≠ String "@"%char rest) as [[rest ->]|Hno].
    { destruct fullname as [|a rest]; [by right|].
      destruct (decide (a = "@"%char)) as [->|Hne]; [left; by eexists|].
      right. intros rest' [= ? _]. done. }
    + rewrite getNameSchema_scoped_eq in Hthrow.
      destruct (search _ _) as [n|] eqn:Es; [discriminate|].
      injection Hthrow as <-. split; [|done]. exists rest. split; [done|].
      intros Hin. destruct (search_is_Some "/"%char (String "@"%char rest)) as [i Hi].
      * simpl. by right.
      * rewrite Hi in Es. discriminate Es.
    + rewrite getNameSchema_unscoped_eq in Hthrow; [discriminate | done].
  - intros [[rest [-> Hno]] ->]. rewrite getNameSchema_scoped_eq.
    rewrite search_None; [done|]. simpl. intros Hin.
    apply elem_of_cons in Hin as [Heq|Hin]; [discriminate Heq | done].
Qed.

Lemma getNameSchema_throws_iff_witness :
  getNameSchema "@pipcook" = Throw (TypeError "invalid package name: @pipcook").
Proof.
  apply (proj2 (getNameSchema_throws_iff "@pipcook"
                  (TypeError "invalid package name: @pipcook"))).
  split; [|reflexivity]. exists "pipcook". split; [reflexivity|].
  vm_compute. intros Hin.
  repeat (apply elem_of_cons in Hin as [Heq|Hin]; [discriminate Heq|]).
  by apply elem_of_nil in Hin.
Defined.

Lemma substr_to_app (a b : string) : substr_to (String.length a) (a +:+ b) = a.
Proof.
  induction a as [|x a IH]; simpl; [by destruct b|].
  change (String x (substr_to (String.length a) (a +:+ b)) = String x a).
  by rewrite IH.
Qed.

Lemma substr_from_app (a b : string) (c : ascii) :
  substr_from (String.length a + 1) (a +:+ String c b) = b.
Proof. induction a as [|x a IH]; simpl; [done|]. exact IH. Qed.

Lemma schema_of_props (scope : option string) (fullname : string) :
  schema_scope (schema_of scope fullname) = scope
  ∧ schema_version (schema_of scope fullname) ≠ Some ""
  ∧ ("@"%char ∉ chars (schema_name (schema_of scope fullname)))
  ∧ (∀ v, schema_version (schema_of scope fullname) = Some v → "@"%char ∉ chars v).
Proof.
  unfold schema_of, name_and_version.
  destruct (split_parts_no_sep "@"%char fullname) as [Hname Hrest].
  destruct (split "@"%char fullname) as [name rest]; simpl in *.
  split; [done|]. split; [by destruct rest as [|[|] ?]|]. split; [done|].
  intros v. destruct rest as [|r rest]; simpl; [discriminate|].
  apply Forall_cons in Hrest as [Hr _].
  destruct (truthy_string r); [by intros [= <-] | discriminate].
Qed.

(** X2: what every schema that [getNameSchema] returns satisfies.  The
    version is never the empty string, neither the name nor the version
    holds an [@], and a scope is present exactly for names that start with
    [@]; it then starts with [@], holds no slash, and is the part of the
    name before its first slash. *)
Theorem getNameSchema_invariants (fullname : string) (schema : NpmPackageNameSchema) :
  getNameSchema fullname = Return schema →
  schema_version schema ≠ Some ""
  ∧ ("@"%char ∉ chars (schema_name schema))
  ∧ (∀ v, schema_version schema = Some v → "@"%char ∉ chars v)
  ∧ (∀ scope, schema_scope schema = Some scope →
       (∃ r, scope = String "@"%char r)
       ∧ ("/"%char ∉ chars scope)
       ∧ ∃ rest, fullname = scope +:+ String "/"%char rest)
  ∧ (schema_scope schema = None ↔ ∀ rest, fullname ≠ String "@"%char rest).
Proof.
  intros Hret.
  assert ((∃ rest, fullname = String "@"%char rest)
          ∨ ∀ rest, fullname ≠ String "@"%char rest) as [[rest ->]|Hno].
  { destruct fullname as [|a rest]; [by right|].
    destruct (decide (a = "@"%char)) as [->|Hne]; [left; by eexists|].
    right. intros rest' [= ? _]. done. }
  - rewrite getNameSchema_scoped_eq in Hret.
    destruct (search _ _) as [n|] eqn:Es; [|discriminate].
    injection Hret as <-.
    destruct (schema_of_props (Some (substr_to n (String "@"%char rest)))
                (substr_from (n + 1) (String "@"%char rest)))
      as (Hscope & Hver & Hname & Hv).
    repeat (split; [done|]). rewrite Hscope. split.
    + intros scope [= <-].
      destruct (search_Some_split _ _ _ Es) as [Heq Hnot].
      split; [|split; [done | by eexists]].
      destruct n as [|n]; [|by eexists].
      simpl in Es. destruct (search "/"%char rest); discriminate Es.
    + split; [discriminate|]. intros Hall. by destruct (Hall rest).
  - rewrite getNameSchema_unscoped_eq in Hret by done. injection Hret as <-.
    destruct (schema_of_props None fullname) as (Hscope & Hver & Hname & Hv).
    repeat (split; [done|]). rewrite Hscope. split; [discriminate | done].
Qed.

Lemma getNameSchema_invariants_witness :
  schema_version (mkSchema (Some "@pipcook") "core" None) ≠ Some ""
  ∧ ∃ rest, "@pipcook/core@" = "@pipcook" +:+ String "/"%char rest.
Proof.
  destruct (getNameSchema_invariants "@pipcook/core@"
              (mkSchema (Some "@pipcook") "core" None) eq_refl)
    as (Hver & _ & _ & Hscope & _).
  split; [exact Hver|]. exact (proj2 (proj2 (Hscope "@pipcook" eq_refl))).
Defined.

Lemma no_at_not_scoped (n : string) :
  "@"%char ∉ chars n → ∀ rest, n ≠ String "@"%char rest.
Proof. intros Hnot rest ->. apply Hnot. left. Qed.

(** X3: names put together from their parts are parsed back into those
    parts.  For a name [n] and a version [v] without [@] ([n] and [v] not
    empty), [n@v] gives the name [n] with the version [v] and [n] alone gives
    no version; with a scope [@s] ([s] without slash), [@s/n@v] gives the
    scope [@s], the name [n] and the version [v], and [@s/n] no version. *)
Theorem getNameSchema_of_parts (s n v : string) :
  ("@"%char ∉ chars n) → ("@"%char ∉ chars v) → v ≠ "" →
  ("/"%char ∉ chars s) →
  (n ≠ "" →
   getNameSchema (n +:+ String "@"%char v) = Return (mkSchema None n (Some v))
   ∧ getNameSchema n = Return (mkSchema None n None))
  ∧ getNameSchema (String "@"%char s +:+ String "/"%char (n +:+ String "@"%char v))
    = Return (mkSchema (Some (String "@"%char s)) n (Some v))
  ∧ getNameSchema (String "@"%char s +:+ String "/"%char n)
    = Return (mkSchema (Some (String "@"%char s)) n None).
Proof.
  intros Hn Hv Hne Hs.
  assert (∀ scope, schema_of scope (n +:+ String "@"%char v)
                   = mkSchema scope n (Some v)) as Hversioned.
  { intros scope. unfold schema_of, name_and_version.
    rewrite split_app by done. rewrite split_no_sep by done. simpl.
    by destruct v. }
  assert (∀ scope, schema_of scope n = mkSchema scope n None) as Hplain.
  { intros scope. unfold schema_of, name_and_version. by rewrite split_no_sep. }
  assert ("/"%char ∉ chars (String "@"%char s)) as Hs'.
  { simpl. intros Hin. apply elem_of_cons in Hin as [Heq|Hin]; [discriminate Heq | done]. }
  split; [|split].
  - intros Hn0. split.
    + rewrite getNameSchema_unscoped_eq; [by rewrite Hversioned|].
      destruct n as [|a n']; [done|]. intros rest [= -> _]. apply Hn. left.
    + rewrite getNameSchema_unscoped_eq; [by rewrite Hplain|].
      by apply no_at_not_scoped.
  - change (String "@"%char s +:+ String "/"%char (n +:+ String "@"%char v))
      with (String "@"%char (s +:+ String "/"%char (n +:+ String "@"%char v))).
    rewrite getNameSchema_scoped_eq.
    change (String "@"%char (s +:+ String "/"%char (n +:+ String "@"%char v)))
      with (String "@"%char s +:+ String "/"%char (n +:+ String "@"%char v)).
    rewrite search_app by done.
    by rewrite substr_to_app, substr_from_app, Hversioned.
  - change (String "@"%char s +:+ String "/"%char n)
      with (String "@"%char (s +:+ String "/"%char n)).
    rewrite getNameSchema_scoped_eq.
    change (String "@"%char (s +:+ String "/"%char n))
      with (String "@"%char s +:+ String "/"%char n).
    rewrite search_app by done.
    by rewrite substr_to_app, substr_from_app, Hplain.
Qed.

Ltac not_in_chars :=
  vm_compute; let Hin := fresh "Hin" in intros Hin;
  repeat (apply elem_of_cons in Hin as [Hin|Hin]; [discriminate Hin|]);
  by apply elem_of_nil in Hin.

Lemma getNameSchema_of_parts_witness :
  getNameSchema "core@1.2.3" = Return (mkSchema None "core" (Some "1.2.3"))
  ∧ getNameSchema "@pipcook/core@1.2.3"
    = Return (mkSchema (Some "@pipcook") "core" (Some "1.2.3")).
Proof.
  destruct (getNameSchema_of_parts "pipcook" "core" "1.2.3")
    as (Hplain & Hscoped & _); [not_in_chars | not_in_chars | discriminate | not_in_chars |].
  split; [exact (proj1 (Hplain ltac:(discriminate))) | exact Hscoped].
Defined.

(** ** selectNpmPackage *)

(** X4: for a source with a name schema, the selection throws in one case
    only, a [beta] request on metadata without a [beta] tag.  A missing
    [latest] tag and a version that the registry does not hold are not
    errors at this step. *)
Theorem selectNpmPackage_throws_iff
    (metadata : NpmPackageMetadata) (source : PluginSource)
    (schema : NpmPackageNameSchema) (e : error) :
  src_schema source = Some schema →
  (selectNpmPackage metadata source = Throw e
   ↔ schema_version schema = Some "beta"
     ∧ dist_tags metadata !! "beta" = None
     ∧ e = TypeError (no_beta_message source)).
Proof.
  intros Hs. split.
  - unfold selectNpmPackage. rewrite Hs.
    destruct (decide (schema_version schema = Some "beta")) as [Hb|Hb].
    + destruct (dist_tags metadata !! "beta"); [discriminate|]. by intros [= <-].
    + destruct (decide _); [discriminate|]. by destruct (truthy _).
  - intros (Hv & Hb & ->). by eapply select_beta_missing.
Qed.

Lemma selectNpmPackage_throws_iff_witness :
  selectNpmPackage SelectExample.stable_only (SelectExample.request (Some "beta"))
  = Throw (TypeError (no_beta_message (SelectExample.request (Some "beta")))).
Proof.
  apply (proj2 (selectNpmPackage_throws_iff SelectExample.stable_only
                  (SelectExample.request (Some "beta")) _ _ eq_refl)).
  split; [reflexivity|]. split; [vm_compute; reflexivity | reflexivity].
Defined.

(** X5: a request without a version, one with the empty version, one for
    [latest], and one that names the very version the [latest] tag points
    to, all select the same manifest. *)
Theorem selectNpmPackage_latest_is_default
    (metadata : NpmPackageMetadata) (source1 source2 : PluginSource)
    (schema1 schema2 : NpmPackageNameSchema) (l : string) :
  src_schema source1 = Some schema1 →
  src_schema source2 = Some schema2 →
  schema_version schema1 = Some "latest" →
  dist_tags metadata !! "latest" = Some l →
  (truthy (schema_version schema2) = false →
   selectNpmPackage metadata source2 = selectNpmPackage metadata source1)
  ∧ (schema_version schema2 = Some l → l ≠ "" → l ≠ "beta" →
     selectNpmPackage metadata source2 = selectNpmPackage metadata source1).
Proof.
  intros Hs1 Hs2 Hv1 Hl.
  rewrite (select_latest metadata source1 schema1 Hs1 Hv1). split.
  - intros Hv2. by rewrite (select_default metadata source2 schema2 Hs2 Hv2).
  - intros Hv2 Hne Hnb. rewrite Hl. simpl.
    destruct (decide (l = "latest")) as [->|Hnl].
    { rewrite (select_latest metadata source2 schema2 Hs2 Hv2). by rewrite Hl. }
    by rewrite (select_explicit metadata source2 schema2 Hs2 l Hv2 Hnb Hnl Hne).
Qed.

Lemma selectNpmPackage_latest_is_default_witness :
  selectNpmPackage SelectExample.metadata (SelectExample.request None)
  = selectNpmPackage SelectExample.metadata (SelectExample.request (Some "latest"))
  ∧ selectNpmPackage SelectExample.metadata (SelectExample.request (Some "1.2.0"))
    = selectNpmPackage SelectExample.metadata (SelectExample.request (Some "latest")).
Proof.
  split.
  - exact (proj1 (selectNpmPackage_latest_is_default SelectExample.metadata
             (SelectExample.request (Some "latest")) (SelectExample.request None)
             _ _ "1.2.0" eq_refl eq_refl eq_refl eq_refl) eq_refl).
  - exact (proj2 (selectNpmPackage_latest_is_default SelectExample.metadata
             (SelectExample.request (Some "latest")) (SelectExample.request (Some "1.2.0"))
             _ _ "1.2.0" eq_refl eq_refl eq_refl eq_refl)
           eq_refl ltac:(discriminate) ltac:(discriminate)).
Defined.


(** ** requestHttpGetWithCache *)

(** X6: the ways the cached fetch fails, and what it never does.  A request
    that rejects, a 200 whose body does not parse, and a 304 when the cache
    had no entry all throw, the last one a TypeError; in each of them, as on
    every path but a 200 with a body that parses, nothing is put in the
    cache. *)
Theorem requestHttpGetWithCache_failures
    {JSON C : Type} `{!CacheOps C (HTTPCache JSON)}
    (JSON_parse : string → result JSON) (JSON_truthy : JSON → bool)
    (get : string → RequestPromiseOptions → result Response)
    (uri : string) (cache : C) :
  let cached := fst (cache_get uri cache) in
  let cache1 := snd (cache_get uri cache) in
  let sent := get uri (request_options JSON JSON_truthy cached) in
  let outcome := requestHttpGetWithCache JSON JSON_parse JSON_truthy get uri cache in
  (∀ e, sent = Throw e → outcome = (Throw e, cache1))
  ∧ (∀ resp e, sent = Return resp → resp_statusCode resp = 200%Z →
       JSON_parse (resp_body resp) = Throw e → outcome = (Throw e, cache1))
  ∧ (∀ resp, sent = Return resp → resp_statusCode resp = 304%Z → cached = None →
       ∃ message, outcome = (Throw (TypeError message), cache1))
  ∧ (snd outcome = cache1
     ∨ ∃ resp b, sent = Return resp ∧ resp_statusCode resp = 200%Z
         ∧ JSON_parse (resp_body resp) = Return b
         ∧ outcome
           = (Return b,
              cache_put uri (mkCache (resp_etag resp) (resp_last_modified resp) b)
                        cache1)).
Proof.
  intros cached cache1 sent outcome.
  subst cached cache1 sent outcome. unfold requestHttpGetWithCache.
  destruct (cache_get uri cache) as [cached cache1]; simpl.
  destruct (get uri (request_options JSON JSON_truthy cached)) as [resp|e0] eqn:Hsent.
  - destruct (decide (resp_statusCode resp = 200%Z)) as [H200|H200].
    + destruct (JSON_parse (resp_body resp)) as [b|e1] eqn:Hparse.
      * split; [discriminate|]. split; [intros ? ? [= <-] _; by rewrite Hparse|].
        split; [intros ? [= <-] H304; rewrite H200 in H304; discriminate H304|].
        right. by exists resp, b.
      * split; [discriminate|].
        split; [intros ? ? [= <-] _; rewrite Hparse; by intros [= <-]|].
        split; [intros ? [= <-] H304; rewrite H200 in H304; discriminate H304|].
        by left.
    + split; [discriminate|]. split; [by intros ? ? [= <-] ?|].
      destruct (decide (resp_statusCode resp = 304%Z)) as [H304|H304].
      * split; [|left; by destruct cached].
        intros ? [= <-] _ ->. by eexists.
      * split; [by intros ? [= <-] ?|]. by left.
  - split; [by intros ? [= <-]|]. split; [discriminate|]. split; [discriminate|].
    by left.
Qed.

Lemma requestHttpGetWithCache_failures_witness :
  requestHttpGetWithCache string HttpExample.failing_parse truthy_string
    HttpExample.registry "https://registry.npmjs.org/plugin" HttpExample.empty
  = (Throw (SyntaxError "Unexpected token"), HttpExample.empty).
Proof.
  exact (proj1 (proj2 (requestHttpGetWithCache_failures HttpExample.failing_parse
           truthy_string HttpExample.registry "https://registry.npmjs.org/plugin"
           HttpExample.empty))
         (mkResponse 200 (Some "abc") (Some "Mon") "{}" "OK")
         (SyntaxError "Unexpected token") eq_refl eq_refl eq_refl).
Defined.

(** X7: a fetch answered with 200 followed by a fetch of the same URI
    answered with 304 returns the same body twice, for every cache that
    answers [get] with the value last [put] under the key. *)
Theorem requestHttpGetWithCache_revalidated
    {JSON C : Type} `{!CacheOps C (HTTPCache JSON)}
    (JSON_parse : string → result JSON) (JSON_truthy : JSON → bool)
    (get : string → RequestPromiseOptions → result Response)
    (uri : string) (cache : C) (first second : Response) (b : JSON) :
  (∀ k v (c : C), fst (cache_get k (cache_put k v c)) = Some v) →
  get uri (request_options JSON JSON_truthy (fst (cache_get uri cache))) = Return first →
  resp_statusCode first = 200%Z →
  JSON_parse (resp_body first) = Return b →
  get uri (request_options JSON JSON_truthy
             (Some (mkCache (resp_etag first) (resp_last_modified first) b)))
  = Return second →
  resp_statusCode second = 304%Z →
  ∃ cache1,
    requestHttpGetWithCache JSON JSON_parse JSON_truthy get uri cache = (Return b, cache1)
    ∧ fst (requestHttpGetWithCache JSON JSON_parse JSON_truthy get uri cache1) = Return b.
Proof.
  intros Hlaw Hfirst H200 Hparse Hsecond H304.
  eexists. split.
  - exact (request_200 JSON_parse JSON_truthy get uri cache first Hfirst b H200 Hparse).
  - rewrite (request_304 JSON_parse JSON_truthy get uri _ second) with
      (c := mkCache (resp_etag first) (resp_last_modified first) b);
      [done | by rewrite Hlaw | done | apply Hlaw].
Qed.

Lemma requestHttpGetWithCache_revalidated_witness :
  ∃ cache1,
    requestHttpGetWithCache string HttpExample.parse truthy_string HttpExample.registry
      "https://registry.npmjs.org/plugin" HttpExample.empty
    = (Return "{}", cache1)
    ∧ fst (requestHttpGetWithCache string HttpExample.parse truthy_string
             HttpExample.registry "https://registry.npmjs.org/plugin" cache1)
      = Return "{}".
Proof.
  apply (requestHttpGetWithCache_revalidated HttpExample.parse truthy_string
           HttpExample.registry "https://registry.npmjs.org/plugin" HttpExample.empty
           (mkResponse 200 (Some "abc") (Some "Mon") "{}" "OK")
           (mkResponse 304 (Some "abc") None "" "Not Modified") "{}");
    try reflexivity.
  intros k v c. simpl. rewrite lru_get_value. apply lru_put_lookup.
Defined.

(** ** uninstall *)

Section UninstallMore.

Variable options : RuntimeOptions.

Lemma uninstall_readable (pkgMeta : PkgMetaArg) (m : RootManifest) (w : World) :
  files w !! Path.canon (manifest_path options) = Some (JsonFile m) →
  uninstall options pkgMeta w
  = (let '(r, w') :=
       match pkgMeta with
       | Many metas => removePkgs options metas false m
       | One meta => removePkg options (meta_name meta) (meta_version meta) m
       end w in
     match r with
     | Return (true, m') => writeJson (manifest_path options) m' ;;; ret true
     | Return (false, _) => ret false
     | Throw e => throw e
     end%io w').
Proof.
  intros Hm. unfold uninstall, bind at 1 2, readJson. rewrite Hm.
  destruct pkgMeta as [meta|metas].
  - by destruct (removePkg options _ _ m w) as [[[[] m']|e] w'].
  - by destruct (removePkgs options metas false m w) as [[[[] m']|e] w'].
Qed.

Lemma removePkgs_true_iff (metas : list PkgMeta) :
  ∀ (success : bool) (m : RootManifest) (w : World),
  ∃ b m' w',
    removePkgs options metas success m w = (Return (b, m'), w')
    ∧ (b = true ↔ success = true
                  ∨ ∃ meta, meta ∈ metas
                      ∧ fst (isInstalled options (meta_name meta) w) = Return true).
Proof.
  induction metas as [|meta rest IH]; intros success m w.
  - exists success, m, w. split; [done|]. split; [by left|].
    intros [->|(? & Hin & _)]; [done | by apply elem_of_nil in Hin].
  - simpl. unfold bind.
    destruct (isInstalled_decided options (meta_name meta) w) as [Hin|Hout].
    + destruct (removePkg_remove options (meta_name meta) (meta_version meta) m w Hin)
        as (w1 & -> & _). simpl.
      destruct (removePkgs_outcome options rest true (delete_dependency (meta_name meta) m) w1)
        as (b & m' & w' & d & Heq & _ & Hb & _).
      exists b, m', w'. split; [done|].
      assert (b = true) as -> by (apply Hb; by left).
      split; [|done]. intros _. right. exists meta. split; [left | done].
    + rewrite (removePkg_skip options _ _ m w Hout). simpl.
      destruct (IH success m w) as (b & m' & w' & Heq & Hb).
      exists b, m', w'. split; [done|]. rewrite Hb. split.
      * intros [?|(meta' & Hin' & Hinst)]; [by left|].
        right. exists meta'. split; [by right | done].
      * intros [?|(meta' & Hin' & Hinst)]; [by left|].
        apply elem_of_cons in Hin' as [Hsame|Hin'].
        -- subst meta'. rewrite isInstalled_eq in Hout. simpl in *. congruence.
        -- right. by exists meta'.
Qed.

Lemma manifest_frame_refl (names : list string) (m : RootManifest) :
  manifest_frame names m m.
Proof. split; [done|]. by destruct (dependencies m). Qed.

Lemma manifest_frame_trans (names1 names2 : list string) (m1 m2 m3 : RootManifest) :
  manifest_frame names1 m1 m2 → manifest_frame names2 m2 m3 →
  manifest_frame (names1 ++ names2) m1 m3.
Proof.
  intros [Ho1 Hd1] [Ho2 Hd2]. split; [congruence|].
  destruct (dependencies m1), (dependencies m2), (dependencies m3); try done.
  destruct Hd1 as [Hsub1 Hkeep1], Hd2 as [Hsub2 Hkeep2]. split.
  - intros k v Hk. by apply Hsub1, Hsub2.
  - intros k Hk. rewrite Hkeep2, Hkeep1; [done|..];
      intros Hin; apply Hk; apply elem_of_app; auto.
Qed.

Lemma delete_dependency_frame (name : string) (m : RootManifest) :
  manifest_frame [ name ] m (delete_dependency name m).
Proof.
  unfold delete_dependency. destruct (dependencies m) as [deps|] eqn:Hd.
  - destruct (deps !! name) as [v|] eqn:Hv.
    + destruct (truthy_string v).
      * split; [done|]. simpl. rewrite Hd. split.
        -- intros k v'. rewrite lookup_delete_Some. by intros [_ ?].
        -- intros k Hk. apply lookup_delete_ne. intros ->. apply Hk. left.
      * apply manifest_frame_refl.
    + apply manifest_frame_refl.
  - apply manifest_frame_refl.
Qed.

Lemma delete_dependency_gone (name : string) (m : RootManifest) :
  ∀ deps' v, dependencies (delete_dependency name m) = Some deps' →
             deps' !! name = Some v → v = "".
Proof.
  intros deps' v. unfold delete_dependency.
  destruct (dependencies m) as [deps|] eqn:Hd; [|by rewrite Hd].
  destruct (deps !! name) as [v0|] eqn:Hv.
  - destruct (truthy_string v0) eqn:Ht.
    + simpl. intros [= <-]. by rewrite lookup_delete_eq.
    + rewrite Hd. intros [= <-]. rewrite Hv. intros [= <-]. by destruct v0.
  - rewrite Hd. intros [= <-]. by rewrite Hv.
Qed.

Lemma removePkg_frame (name version : string) (m m' : RootManifest) (b : bool)
    (w w' : World) :
  removePkg options name version m w = (Return (b, m'), w') →
  manifest_frame [ name ] m m'.
Proof.
  destruct (isInstalled_decided options name w) as [Hin|Hout].
  - destruct (removePkg_remove options name version m w Hin) as (w1 & -> & _).
    intros [= _ <- _]. apply delete_dependency_frame.
  - rewrite (removePkg_skip options name version m w Hout).
    intros [= _ <- _]. apply manifest_frame_refl.
Qed.

Lemma removePkgs_frame (metas : list PkgMeta) :
  ∀ (success b : bool) (m m' : RootManifest) (w w' : World),
  removePkgs options metas success m w = (Return (b, m'), w') →
  manifest_frame (map meta_name metas) m m'.
Proof.
  induction metas as [|meta rest IH]; intros success b m m' w w'; simpl.
  - intros [= _ <- _]. apply manifest_frame_refl.
  - unfold bind.
    destruct (removePkg options (meta_name meta) (meta_version meta) m w)
      as [[[b1 m1]|e] w1] eqn:H1; [|discriminate].
    simpl. intros Hrest.
    apply (manifest_frame_trans [ meta_name meta ] (map meta_name rest) m m1 m').
    + by eapply removePkg_frame.
    + by eapply IH.
Qed.

End UninstallMore.

(** X8: without a root manifest file [uninstall] throws and removes
    nothing, whatever is installed; [install] with [force] on such an
    install directory, a fresh one for instance, throws the same error
    before any provisioning. *)
Theorem uninstall_without_manifest
    (options : RuntimeOptions) (process : Process)
    (getPluginDirectory : string → string → PluginProtocol → string)
    (child : string → list string → option string → gmap string fsnode
             → Z * gmap string fsnode)
    (stringify : RootManifest → string)
    (pkgMeta : PkgMetaArg) (pkg : PluginPackage) (opts : InstallOptions) (w : World) :
  files w !! Path.canon (manifest_path options) = None →
  ∃ e,
    uninstall options pkgMeta w = (Throw e, w)
    ∧ (force opts = Some true →
       install options process getPluginDirectory child stringify pkg opts w
       = (Throw e, w)).
Proof.
  intros Hm. exists (ENOENT (manifest_path options)).
  assert (∀ arg, uninstall options arg w = (Throw (ENOENT (manifest_path options)), w))
    as Hun.
  { intros arg. unfold uninstall, bind, readJson. by rewrite Hm. }
  split; [apply Hun|]. intros Hf.
  rewrite install_forced by done. unfold bind. by rewrite Hun.
Qed.

Lemma uninstall_without_manifest_witness :
  ∃ e,
    uninstall RuntimeExample.options (One UninstallExample.a1) RuntimeExample.nothing
    = (Throw e, RuntimeExample.nothing)
    ∧ (force UninstallExample.forced = Some true →
       install RuntimeExample.options RuntimeExample.production
         UninstallExample.getPluginDirectory UninstallExample.child
         UninstallExample.stringify (UninstallExample.version_of "1")
         UninstallExample.forced RuntimeExample.nothing
       = (Throw e, RuntimeExample.nothing)).
Proof.
  apply (uninstall_without_manifest RuntimeExample.options RuntimeExample.production
           UninstallExample.getPluginDirectory UninstallExample.child
           UninstallExample.stringify (One UninstallExample.a1)
           (UninstallExample.version_of "1") UninstallExample.forced
           RuntimeExample.nothing).
  vm_compute. reflexivity.
Defined.

(** X9: with a readable root manifest the removals of [uninstall] return,
    and their flag is true exactly when the directory node_modules/name of
    one of the entries exists in the world [uninstall] is called on.  With
    the flag false [uninstall] returns false and leaves the world as it is.
    With the flag true it writes the manifest and returns true when the
    manifest file can be opened for writing in the world the removals
    leave; when it cannot, [uninstall] throws the error of the write, on
    that world. *)
Theorem uninstall_true_iff_installed
    (options : RuntimeOptions) (pkgMeta : PkgMetaArg) (m : RootManifest) (w : World) :
  files w !! Path.canon (manifest_path options) = Some (JsonFile m) →
  ∃ b m' w0,
    remove_entries options pkgMeta m w = (Return (b, m'), w0)
    ∧ (b = true
       ↔ ∃ name, name ∈ names_of pkgMeta
           ∧ fst (isInstalled options name w) = Return true)
    ∧ (b = false → uninstall options pkgMeta w = (Return false, w))
    ∧ (b = true → open_error (manifest_path options) (files w0) = None →
       uninstall options pkgMeta w
       = (Return true,
          emit (EvWriteJson (manifest_path options) m')
            (set_files (<[Path.canon (manifest_path options) := JsonFile m']> (files w0))
                       w0)))
    ∧ (b = true → ∀ e, open_error (manifest_path options) (files w0) = Some e →
       uninstall options pkgMeta w = (Throw e, w0)).
Proof.
  intros Hm.
  destruct (remove_entries_outcome options pkgMeta m w)
    as (b & m' & w0 & d & Heq & _ & _ & _ & Hno).
  exists b, m', w0. split; [exact Heq|]. split.
  - destruct pkgMeta as [meta|metas]; unfold remove_entries in Heq; simpl.
    + destruct (isInstalled_decided options (meta_name meta) w) as [Hin|Hout].
      * destruct (removePkg_remove options (meta_name meta) (meta_version meta) m w Hin)
          as (w1 & Heq1 & _).
        rewrite Heq1 in Heq. injection Heq as <- _ _. split; [|done].
        intros _. exists (meta_name meta). split; [left | done].
      * rewrite (removePkg_skip options _ _ m w Hout) in Heq. injection Heq as <- _ _.
        split; [discriminate|].
        intros (name & Hname & Hinst). apply list_elem_of_singleton in Hname as ->.
        rewrite isInstalled_eq in Hout. simpl in *. congruence.
    + destruct (removePkgs_true_iff options metas false m w) as (b1 & m1 & w1 & Heq1 & Hb).
      rewrite Heq1 in Heq. injection Heq as -> _ _.
      rewrite Hb. split.
      * intros [?|(meta & Hin & Hinst)]; [done|].
        exists (meta_name meta). split; [|done].
        apply list_elem_of_fmap. by exists meta.
      * intros (name & Hin & Hinst). right.
        apply list_elem_of_fmap in Hin as (meta & -> & Hin). by exists meta.
  - rewrite uninstall_eq, Hm, Heq. split; [|split].
    + intros ->. by destruct (Hno eq_refl) as [-> _].
    + by intros -> ->.
    + by intros -> e ->.
Qed.

Lemma uninstall_true_iff_installed_witness :
  ∃ b m' w0,
    remove_entries RuntimeExample.options (Many [ UninstallExample.a1; UninstallExample.b1 ])
      (UninstallExample.manifest {[ "b" := "1"; "c" := "2" ]}) UninstallExample.only_b
    = (Return (b, m'), w0)
    ∧ (b = true
       ↔ ∃ name, name ∈ [ "a"; "b" ]
           ∧ fst (isInstalled RuntimeExample.options name UninstallExample.only_b)
             = Return true)
    ∧ (b = false →
       uninstall RuntimeExample.options (Many [ UninstallExample.a1; UninstallExample.b1 ])
         UninstallExample.only_b = (Return false, UninstallExample.only_b))
    ∧ (b = true →
       open_error (manifest_path RuntimeExample.options) (files w0) = None →
       uninstall RuntimeExample.options (Many [ UninstallExample.a1; UninstallExample.b1 ])
         UninstallExample.only_b
       = (Return true,
          emit (EvWriteJson (manifest_path RuntimeExample.options) m')
            (set_files (<[Path.canon (manifest_path RuntimeExample.options)
                          := JsonFile m']> (files w0)) w0)))
    ∧ (b = true →
       ∀ e, open_error (manifest_path RuntimeExample.options) (files w0) = Some e →
       uninstall RuntimeExample.options (Many [ UninstallExample.a1; UninstallExample.b1 ])
         UninstallExample.only_b = (Throw e, w0)).
Proof.
  apply (uninstall_true_iff_installed RuntimeExample.options
           (Many [ UninstallExample.a1; UninstallExample.b1 ])
           (UninstallExample.manifest {[ "b" := "1"; "c" := "2" ]})
           UninstallExample.only_b).
  vm_compute. reflexivity.
Defined.

(** X10: what [uninstall] writes into the root manifest.  The written
    manifest keeps the other fields, adds no dependency and keeps every
    dependency whose name is not among the entries.  After the uninstall of
    one entry it is the manifest read with the dependency of that name
    deleted; only a dependency whose value is the empty string stays under
    that name. *)
Theorem uninstall_manifest_frame
    (options : RuntimeOptions) (pkgMeta : PkgMetaArg) (m : RootManifest) (w w' : World) :
  files w !! Path.canon (manifest_path options) = Some (JsonFile m) →
  uninstall options pkgMeta w = (Return true, w') →
  ∃ m',
    files w' !! Path.canon (manifest_path options) = Some (JsonFile m')
    ∧ manifest_frame (names_of pkgMeta) m m'
    ∧ (∀ meta, pkgMeta = One meta →
         m' = delete_dependency (meta_name meta) m
         ∧ ∀ deps' v, dependencies m' = Some deps' →
                      deps' !! meta_name meta = Some v → v = "").
Proof.
  intros Hm. rewrite uninstall_eq, Hm.
  destruct (remove_entries options pkgMeta m w) as [[[[] m']|e] w1] eqn:Hrun;
    [|discriminate..].
  destruct (open_error _ _); [discriminate|].
  intros [= <-]. exists m'. split; [apply lookup_insert_eq|].
  destruct pkgMeta as [meta|metas]; unfold remove_entries in Hrun.
  - split; [by eapply removePkg_frame|]. intros ? [= <-].
    assert (m' = delete_dependency (meta_name meta) m) as ->.
    { destruct (isInstalled_decided options (meta_name meta) w) as [Hin|Hout].
      - destruct (removePkg_remove options (meta_name meta) (meta_version meta) m w Hin)
          as (w2 & Heq & _). rewrite Heq in Hrun. by injection Hrun as <- _.
      - rewrite (removePkg_skip options _ _ m w Hout) in Hrun. discriminate Hrun. }
    split; [done | apply delete_dependency_gone].
  - split; [by eapply removePkgs_frame | discriminate].
Qed.

Lemma uninstall_manifest_frame_witness :
  ∃ m',
    files UninstallExample.after_b !! Path.canon (manifest_path RuntimeExample.options)
    = Some (JsonFile m')
    ∧ manifest_frame [ "a"; "b" ]
        (UninstallExample.manifest {[ "b" := "1"; "c" := "2" ]}) m'.
Proof.
  destruct (uninstall_manifest_frame RuntimeExample.options
              (Many [ UninstallExample.a1; UninstallExample.b1 ])
              (UninstallExample.manifest {[ "b" := "1"; "c" := "2" ]})
              UninstallExample.only_b UninstallExample.after_b)
    as (m' & Hfile & Hframe & _); [vm_compute; reflexivity..|].
  by exists m'.
Defined.

(** ** Paths *)

Lemma segments_no_slash (p : string) :
  Forall (fun seg => "/"%char ∉ chars seg) (Path.segments p).
Proof.
  unfold Path.segments. destruct (split_parts_no_sep "/"%char p) as [Hh Ht].
  destruct (split "/"%char p). by constructor.
Qed.

Lemma segments_slash_cons (p : string) :
  Path.segments (String "/"%char p) = "" :: Path.segments p.
Proof. unfold Path.segments. simpl. by destruct (split "/"%char p). Qed.

Lemma segments_app_slash (a b : string) :
  "/"%char ∉ chars a →
  Path.segments (a +:+ String "/"%char b) = a :: Path.segments b.
Proof.
  intros Ha. unfold Path.segments. rewrite split_app by done.
  by destruct (split "/"%char b).
Qed.

Lemma segments_plain (a : string) :
  "/"%char ∉ chars a → Path.segments a = [a].
Proof. intros Ha. unfold Path.segments. by rewrite split_no_sep. Qed.

Lemma concat_cons2 (sep x y : string) (l : list string) :
  String.concat sep (x :: y :: l) = x +:+ sep +:+ String.concat sep (y :: l).
Proof. reflexivity. Qed.

Lemma segments_concat (l : list string) :
  l ≠ [] → Forall (fun seg => "/"%char ∉ chars seg) l →
  Path.segments (String.concat "/" l) = l.
Proof.
  induction l as [|x l IH]; [done|]. intros _ Hall.
  apply Forall_cons in Hall as [Hx Hl].
  destruct l as [|y l].
  - simpl. by apply segments_plain.
  - rewrite concat_cons2.
    change (x +:+ "/" +:+ String.concat "/" (y :: l))
      with (x +:+ String "/"%char (String.concat "/" (y :: l))).
    rewrite segments_app_slash by done. by rewrite IH.
Qed.

Lemma segments_snoc_slash (p : string) :
  Path.segments (p +:+ "/") = Path.segments p ++ [""].
Proof.
  unfold Path.segments. induction p as [|a p IH]; [reflexivity|].
  change (String a p +:+ "/") with (String a (p +:+ "/")). simpl.
  destruct (split "/"%char (p +:+ "/")) as [hd' tl'].
  destruct (split "/"%char p) as [hd tl]. simpl in IH. injection IH as -> ->.
  by destruct (Ascii.eqb a "/"%char).
Qed.

Lemma step_empty allow st : Path.step allow st "" = st.
Proof. reflexivity. Qed.

Lemma step_plain allow st seg : plain seg → Path.step allow st seg = seg :: st.
Proof.
  intros (H1 & H2 & H3 & _). unfold Path.step.
  rewrite decide_False by (intros [?|?]; done). by rewrite decide_False.
Qed.

Lemma step_normal allow st seg :
  "/"%char ∉ chars seg → normal_stack allow st → normal_stack allow (Path.step allow st seg).
Proof.
  intros Hseg (body & k & -> & Hbody & Hk). unfold Path.step.
  destruct (decide (seg = "" ∨ seg = ".")) as [|Hne]; [by exists body, k|].
  destruct (decide (seg = "..")) as [->|Hdd].
  - destruct body as [|top body]; simpl.
    + destruct k as [|k]; simpl.
      * destruct allow; [|by exists [], 0].
        exists [], 1. repeat split; [done|discriminate].
      * try rewrite decide_True by done. destruct allow.
        -- exists [], (S (S k)). repeat split; [done|discriminate].
        -- by exists [], (S k).
    + apply Forall_cons in Hbody as [Htop Hbody].
      rewrite decide_False by (by destruct Htop as (_ & _ & ? & _)).
      by exists body, k.
  - exists (seg :: body), k. repeat split; [|done].
    constructor; [|done]. repeat split; try done; intros ->; apply Hne; auto.
Qed.

Lemma fold_normal allow segs : ∀ st,
  Forall (fun seg => "/"%char ∉ chars seg) segs →
  normal_stack allow st → normal_stack allow (fold_left (Path.step allow) segs st).
Proof.
  induction segs as [|seg segs IH]; intros st Hall Hst; [done|].
  apply Forall_cons in Hall as [Hseg Hall]. simpl. apply IH; [done|].
  by apply step_normal.
Qed.

Lemma fold_dotdots (k : nat) : ∀ j,
  fold_left (Path.step true) (replicate k "..") (replicate j "..") = replicate (k + j) "..".
Proof.
  induction k as [|k IH]; intros j; [done|]. simpl.
  replace (Path.step true (replicate j "..") "..") with (replicate (S j) "..").
  - rewrite IH. by replace (k + S j) with (S (k + j)) by lia.
  - by destruct j.
Qed.

Lemma fold_plain allow xs : ∀ acc,
  Forall plain xs → fold_left (Path.step allow) xs acc = rev xs ++ acc.
Proof.
  induction xs as [|x xs IH]; intros acc Hall; [done|].
  apply Forall_cons in Hall as [Hx Hall]. simpl.
  rewrite step_plain by done. rewrite IH by done. by rewrite <- app_assoc.
Qed.

Lemma rev_replicate {A} (k : nat) (x : A) : rev (replicate k x) = replicate k x.
Proof.
  induction k as [|k IH]; [done|]. simpl. rewrite IH.
  clear IH. induction k as [|k IH]; [done|]. simpl. by rewrite IH.
Qed.

Lemma refold allow st :
  normal_stack allow st → fold_left (Path.step allow) (rev st) [] = st.
Proof.
  intros (body & k & -> & Hbody & Hk).
  rewrite rev_app_distr, rev_replicate, fold_left_app.
  assert (fold_left (Path.step allow) (replicate k "..") [] = replicate k "..") as ->.
  { destruct allow; [|by rewrite Hk].
    pose proof (fold_dotdots k 0) as Hd. simpl in Hd. rewrite Hd.
    by replace (k + 0) with k by lia. }
  rewrite fold_plain by (by apply Forall_rev). by rewrite rev_involutive.
Qed.

Lemma endsWithSlash_app (a b : string) :
  b ≠ "" → Path.endsWithSlash (a +:+ b) = Path.endsWithSlash b.
Proof.
  intros Hb. induction a as [|x a IH]; [done|].
  change (String x a +:+ b) with (String x (a +:+ b)). simpl.
  destruct (a +:+ b) eqn:E; [|done].
  destruct a; [by destruct Hb | discriminate E].
Qed.

Lemma endsWithSlash_no_slash (s : string) :
  "/"%char ∉ chars s → Path.endsWithSlash s = false.
Proof.
  induction s as [|x s IH]; [done|]. simpl. intros Hnot.
  destruct s as [|y s].
  - destruct (Ascii.eqb_spec x "/"%char) as [->|]; [|done]. exfalso. apply Hnot. left.
  - apply IH. intros Hin. apply Hnot. by right.
Qed.

Lemma normal_stack_ok allow st : normal_stack allow st → Forall seg_ok st.
Proof.
  intros (body & k & -> & Hbody & _). apply Forall_app. split.
  - eapply Forall_impl; [exact Hbody|]. by intros seg (? & _ & _ & ?).
  - apply Forall_replicate. split; [done|]. not_in_chars.
Qed.

Lemma concat_ok_nonempty (x : string) (l : list string) :
  seg_ok x → String.concat "/" (x :: l) ≠ "" ∧ startsWith "/" (String.concat "/" (x :: l)) = false.
Proof.
  intros [Hne Hns]. destruct x as [|a x]; [done|].
  assert (a ≠ "/"%char) as Ha by (intros ->; apply Hns; left).
  assert (Ascii.eqb "/" a = false) as Hab.
  { destruct (Ascii.eqb_spec "/"%char a); [congruence | done]. }
  assert (∃ q, String.concat "/" (String a x :: l) = String a q) as [q ->].
  { destruct l as [|y l]; [by eexists|]. rewrite concat_cons2. by eexists. }
  split; [done|].
  change (startsWith "/" (String a q))
    with (if Ascii.eqb "/" a then startsWith "" q else false).
  by rewrite Hab.
Qed.

Lemma concat_ok_ends (l : list string) :
  Forall seg_ok l → Path.endsWithSlash (String.concat "/" l) = false.
Proof.
  induction l as [|x l IH]; [done|]. intros Hall.
  apply Forall_cons in Hall as [[Hx Hns] Hall].
  destruct l as [|y l]; [by apply endsWithSlash_no_slash|].
  rewrite concat_cons2.
  destruct (concat_ok_nonempty y l) as [Hne _]; [by apply Forall_cons in Hall as [? _]|].
  rewrite endsWithSlash_app.
  - rewrite endsWithSlash_app by done. by apply IH.
  - by destruct (String.concat "/" (y :: l)).
Qed.

Lemma fold_left_skip_empty allow (l : list string) (st : list string) :
  fold_left (Path.step allow) (l ++ [""]) st = fold_left (Path.step allow) l st.
Proof. by rewrite fold_left_app. Qed.

Lemma normalizeString_stable (allow : bool) (st : list string) (r : string) :
  normal_stack allow st →
  (Path.segments r = rev st ∨ Path.segments r = "" :: rev st
   ∨ Path.segments r = rev st ++ [""] ∨ Path.segments r = "" :: rev st ++ [""]) →
  Path.normalizeString r allow = String.concat "/" (rev st).
Proof.
  intros Hst Hsegs. unfold Path.normalizeString.
  assert (fold_left (Path.step allow) (Path.segments r) [] = st) as ->; [|done].
  destruct Hsegs as [-> | [-> | [-> | ->]]]; simpl;
    rewrite ?fold_left_skip_empty; by apply refold.
Qed.

Lemma normalize_idempotent (p : string) :
  Path.normalize (Path.normalize p) = Path.normalize p.
Proof.
  assert (∀ r, r = Path.normalize p → Path.normalize r = r) as Hgen; [|by apply Hgen].
  intros r Hr. unfold Path.normalize in Hr.
  destruct (decide (p = "")) as [|Hp]; [by subst r|].
  set (abs := startsWith "/" p) in *. set (trailing := Path.endsWithSlash p) in *.
  unfold Path.normalizeString in Hr.
  set (st := fold_left (Path.step (negb abs)) (Path.segments p) []) in *.
  assert (normal_stack (negb abs) st) as Hst.
  { apply fold_normal; [apply segments_no_slash|]. by exists [], 0. }
  pose proof (normal_stack_ok _ _ Hst) as Hok. apply Forall_rev in Hok.
  destruct (rev st) as [|x l] eqn:Hl.
  { simpl in Hr. subst r. by destruct abs, trailing. }
  destruct (concat_ok_nonempty x l) as [Hne Hstart]; [by apply Forall_cons in Hok as [? _]|].
  pose proof (concat_ok_ends _ Hok) as Hend.
  assert (Forall (fun seg => "/"%char ∉ chars seg) (x :: l)) as Hns.
  { eapply Forall_impl; [exact Hok|]. by intros ? [_ ?]. }
  pose proof (segments_concat (x :: l) ltac:(done) Hns) as Hsegs.
  rewrite decide_False in Hr by done.
  set (path := String.concat "/" (x :: l)) in *.
  assert (∀ r, Path.segments r = rev st ∨ Path.segments r = "" :: rev st
         ∨ Path.segments r = rev st ++ [""] ∨ Path.segments r = "" :: rev st ++ [""] →
         Path.normalizeString r (negb abs) = path) as Hstable.
  { intros r' Hr'. rewrite (normalizeString_stable _ st r' Hst Hr'). by rewrite Hl. }
  rewrite <- Hl in Hsegs. subst r.
  destruct abs, trailing; simpl negb in *; cbv iota.
  - unfold Path.normalize. rewrite decide_False by done.
    change ("/" +:+ path +:+ "/") with (String "/"%char (path +:+ "/")).
    assert (startsWith "/" (String "/"%char (path +:+ "/")) = true) as -> by done.
    assert (Path.endsWithSlash (String "/"%char (path +:+ "/")) = true) as ->.
    { change (Path.endsWithSlash ("/" +:+ (path +:+ "/")) = true).
      rewrite endsWithSlash_app by (by destruct path).
      by rewrite endsWithSlash_app. }
    simpl negb.
    rewrite Hstable; [by rewrite decide_False|].
    right. right. right. by rewrite segments_slash_cons, segments_snoc_slash, Hsegs.
  - unfold Path.normalize. rewrite decide_False by done.
    change ("/" +:+ path) with (String "/"%char path).
    assert (startsWith "/" (String "/"%char path) = true) as -> by done.
    assert (Path.endsWithSlash (String "/"%char path) = false) as ->.
    { change (Path.endsWithSlash ("/" +:+ path) = false).
      by rewrite endsWithSlash_app. }
    simpl negb.
    rewrite Hstable; [by rewrite decide_False|].
    right. left. by rewrite segments_slash_cons, Hsegs.
  - unfold Path.normalize.
    rewrite decide_False by (by destruct path).
    assert (startsWith "/" (path +:+ "/") = false) as ->.
    { destruct path as [|a q]; [done|]. exact Hstart. }
    rewrite (endsWithSlash_app path "/") by done.
    change (Path.endsWithSlash "/") with true. cbv iota. simpl negb.
    rewrite Hstable; [by rewrite decide_False|].
    right. right. left. by rewrite segments_snoc_slash, Hsegs.
  - unfold Path.normalize. rewrite decide_False by done.
    rewrite Hstart, Hend. simpl negb.
    rewrite Hstable; [by rewrite decide_False|]. by left.
Qed.

Lemma canon_normalize (p : string) : Path.canon (Path.normalize p) = Path.canon p.
Proof. unfold Path.canon. by rewrite normalize_idempotent. Qed.

Lemma join_node_modules (dir name : string) :
  dir ≠ "" → name ≠ "" →
  Path.join [ dir; "node_modules"; name ]
  = Path.normalize (dir +:+ "/node_modules/" +:+ name).
Proof.
  intros Hd Hn. unfold Path.join.
  assert (filter (fun part => part ≠ "") [ dir; "node_modules"; name ]
          = [ dir; "node_modules"; name ]) as ->.
  { rewrite filter_cons_True by done. rewrite filter_cons_True by done.
    by rewrite filter_cons_True by done. }
  reflexivity.
Qed.

(** ** remove *)

Lemma remove_gone (p : string) (w : World) :
  files (snd (remove p w)) !! Path.canon p = None.
Proof.
  unfold remove. simpl. apply map_lookup_filter_None. right.
  intros x _. simpl. unfold Path.inside. by rewrite bool_decide_true.
Qed.

Lemma remove_absent (p k : string) (w : World) :
  files w !! k = None → files (snd (remove p w)) !! k = None.
Proof.
  intros Hk. unfold remove. simpl. apply map_lookup_filter_None. by left.
Qed.

Section UninstallAgain.

Variable options : RuntimeOptions.
Hypothesis installDir_given : installDir options ≠ "".

Lemma removePkg_uninstalls (name version : string) (m m' : RootManifest) (w w' : World) :
  name ≠ "" →
  removePkg options name version m w = (Return (true, m'), w') →
  files w' !! Path.canon (installDir options +:+ "/node_modules/" +:+ name) = None.
Proof using installDir_given.
  intros Hname Hrun.
  assert (w' = snd (remove (Path.join [ installDir options; "conda_envs";
                                        name +:+ "@" +:+ version ])
                      (snd (remove (Path.join [ installDir options; "node_modules"; name ])
                              w)))) as ->.
  { revert Hrun. unfold removePkg, bind. rewrite isInstalled_eq.
    destruct (bool_decide _); simpl; [|discriminate]. by intros [= _ <-]. }
  apply remove_absent.
  rewrite <- canon_normalize, <- join_node_modules by done.
  apply remove_gone.
Qed.

End UninstallAgain.

(** X11: a removal leaves the plugin not installed.  For an install
    directory and a name that are not empty, after [removePkg] returned true
    the path that [isInstalled] probes is gone; and when that path is not
    the root manifest itself, a second [uninstall] of the same entry, right
    after one that returned true, returns false and changes nothing. *)
Theorem uninstall_twice
    (options : RuntimeOptions) (meta : PkgMeta) (w w1 : World) :
  installDir options ≠ "" →
  meta_name meta ≠ "" →
  Path.canon (installDir options +:+ "/node_modules/" +:+ meta_name meta)
  ≠ Path.canon (manifest_path options) →
  uninstall options (One meta) w = (Return true, w1) →
  fst (isInstalled options (meta_name meta) w1) = Return false
  ∧ uninstall options (One meta) w1 = (Return false, w1).
Proof.
  intros Hdir Hname Hother Hun.
  rewrite uninstall_eq in Hun.
  destruct (files w !! Path.canon (manifest_path options)) as [[| |m]|] eqn:Hm;
    try discriminate Hun.
  unfold remove_entries in Hun.
  destruct (removePkg options (meta_name meta) (meta_version meta) m w)
    as [[[[] m']|e] w'] eqn:Hrun; [|discriminate..].
  destruct (open_error (manifest_path options) (files w')); [discriminate|].
  injection Hun as <-.
  pose proof (removePkg_uninstalls options Hdir _ _ _ _ _ _ Hname Hrun) as Hgone.
  assert (fst (isInstalled options (meta_name meta)
                 (emit (EvWriteJson (manifest_path options) m')
                    (set_files (<[Path.canon (manifest_path options) := JsonFile m']>
                                  (files w')) w'))) = Return false) as Hout.
  { rewrite isInstalled_eq. simpl. rewrite lookup_insert_ne by done.
    rewrite Hgone. by rewrite bool_decide_false by (by intros [? ?]). }
  split; [exact Hout|].
  rewrite uninstall_eq. cbn [files emit set_files]. rewrite lookup_insert_eq.
  unfold remove_entries.
  by rewrite (removePkg_skip options _ _ m' _ Hout).
Qed.

Lemma uninstall_twice_witness :
  ∃ w1,
    uninstall RuntimeExample.options (One UninstallExample.a1) UninstallExample.bare_a
    = (Return true, w1)
    ∧ uninstall RuntimeExample.options (One UninstallExample.a1) w1 = (Return false, w1).
Proof.
  eexists. split; [vm_compute; reflexivity|].
  apply (uninstall_twice RuntimeExample.options UninstallExample.a1
           UninstallExample.bare_a);
    [discriminate | discriminate | vm_compute; discriminate | vm_compute; reflexivity].
Defined.

(** ** install and its two pipelines *)

Section InstallMore.

Variable options : RuntimeOptions.
Variable process : Process.
Variable getPluginDirectory : string → string → PluginProtocol → string.
Variable child :
  string → list string → option string → gmap string fsnode → Z * gmap string fsnode.
Variable stringify : RootManifest → string.

Lemma spawnAsync_eq (command : string) (args : list string) (cwd : option string)
    (w : World) :
  spawnAsync child command args cwd w
  = (if decide (fst (child command args cwd (files w)) = 0%Z) then Return tt
     else Throw (TypeError (invalid_code_message
                              (fst (child command args cwd (files w))) command)),
     set_files (snd (child command args cwd (files w)))
               (emit (EvSpawn command args cwd) w)).
Proof.
  unfold spawnAsync. destruct (child command args cwd (files w)) as [code f]. simpl.
  by destruct (decide (code = 0%Z)).
Qed.

Lemma provision_without_toolchain (pkg : PluginPackage) (opts : InstallOptions) (w : World) :
  files w !! Path.canon (Path.join [ dirname process; "../node_modules/@pipcook/boa" ])
  = None →
  require_resolve process "@pipcook/boa" = None →
  provision options process getPluginDirectory child stringify pkg opts w
  = (Throw (TypeError (boa_missing_message
                         (Path.join [ dirname process; "../node_modules/@pipcook/boa" ]))),
     w).
Proof.
  intros Hboa Hres. unfold provision, locate_boa, bind, pathExists.
  rewrite Hboa, Hres. by rewrite bool_decide_false by (by intros [? ?]).
Qed.

(** X12: when the interpreter toolchain is found neither beside the module
    nor by [require.resolve], [install] of a package that is not installed
    throws the TypeError that names the path it probed, and it has spawned
    no process and changed no file. *)
Theorem install_without_toolchain (pkg : PluginPackage) (opts : InstallOptions) (w : World) :
  force opts ≠ Some true →
  fst (isInstalled options (pkg_name pkg) w) = Return false →
  files w !! Path.canon (Path.join [ dirname process; "../node_modules/@pipcook/boa" ])
  = None →
  require_resolve process "@pipcook/boa" = None →
  install options process getPluginDirectory child stringify pkg opts w
  = (Throw (TypeError (boa_missing_message
                         (Path.join [ dirname process; "../node_modules/@pipcook/boa" ]))),
     w).
Proof.
  intros Hf Hout Hboa Hres.
  rewrite <- (provision_without_toolchain pkg opts w Hboa Hres).
  rewrite isInstalled_eq in Hout. simpl in Hout. injection Hout as Hout.
  unfold install. rewrite decide_False by done.
  unfold bind at 1 2. unfold ret at 1. rewrite isInstalled_eq. by rewrite Hout.
Qed.

(** X13: the module pipeline, for a package whose install specifier is
    [spec].  With a root manifest in place it spawns one process, npx with
    the pnpm arguments in the install directory, and resolves exactly when
    that process exits with 0.  Without a root manifest it spawns npm init
    first; when that exits with another code the pipeline throws and pnpm
    is never spawned. *)
Theorem installNodeModules_spawns
    (pkg : PluginPackage) (opts : InstallOptions) (spec : string) (w : World) :
  pluginAbsName getPluginDirectory pkg = Return spec →
  let cwd := Some (installDir options) in
  let manifest := files w !! Path.canon (installDir options +:+ "/package.json") in
  let init := child "npm" [ "init"; "-y" ] cwd (files w) in
  (is_Some manifest →
   ∃ r w',
     installNodeModules options getPluginDirectory child pkg opts w = (r, w')
     ∧ trace w' = trace w ++ [ EvSpawn "npx" (npmArgs options spec) cwd ]
     ∧ (r = Return tt ↔ fst (child "npx" (npmArgs options spec) cwd (files w)) = 0%Z))
  ∧ (manifest = None → fst init ≠ 0%Z →
     ∃ w',
       installNodeModules options getPluginDirectory child pkg opts w
       = (Throw (TypeError (invalid_code_message (fst init) "npm")), w')
       ∧ trace w' = trace w ++ [ EvSpawn "npm" [ "init"; "-y" ] cwd ])
  ∧ (manifest = None → fst init = 0%Z →
     ∃ r w',
       installNodeModules options getPluginDirectory child pkg opts w = (r, w')
       ∧ trace w'
         = trace w ++ [ EvSpawn "npm" [ "init"; "-y" ] cwd;
                        EvSpawn "npx" (npmArgs options spec) cwd ]
       ∧ (r = Return tt
          ↔ fst (child "npx" (npmArgs options spec) cwd (snd init)) = 0%Z)).
Proof.
  intros Hspec cwd manifest init. subst manifest init.
  unfold installNodeModules. rewrite Hspec. unfold bind, pathExists.
  fold cwd. split; [|split].
  - intros Hm. rewrite bool_decide_true by done. unfold ret at 1.
    rewrite spawnAsync_eq. eexists _, _. split; [reflexivity|]. split; [done|].
    destruct (decide (_ = 0%Z)); split; done.
  - intros Hm Hcode. rewrite Hm. rewrite bool_decide_false by (by intros [? ?]).
    rewrite spawnAsync_eq. rewrite decide_False by done.
    eexists. split; reflexivity.
  - intros Hm Hcode. rewrite Hm. rewrite bool_decide_false by (by intros [? ?]).
    rewrite spawnAsync_eq. rewrite decide_True by done.
    rewrite spawnAsync_eq. eexists _, _. split; [reflexivity|].
    split; [simpl; by rewrite <- app_assoc|]. simpl.
    destruct (decide (_ = 0%Z)); split; done.
Qed.

Lemma pip_exit_code_cons (pip3 : string) (args : list string) (req : string)
    (rest : list string) (f : gmap string fsnode) (i : nat) :
  pip_exit_code child pip3 args (req :: rest) f (S i)
  = pip_exit_code child pip3 args rest (snd (child pip3 (args ++ [ req ]) None f)) i.
Proof. reflexivity. Qed.

Lemma pip_install_each_all (pip3 : string) (args requirements : list string) :
  ∀ w : World,
  (∀ i code, pip_exit_code child pip3 args requirements (files w) i = Some code →
             code = 0%Z) →
  pip_install_each child pip3 args requirements w
  = (Return tt,
     {| files := files_after_pip child pip3 args requirements (files w);
        trace := trace w ++ map (fun req => EvSpawn pip3 (args ++ [ req ]) None)
                                requirements |}).
Proof.
  induction requirements as [|req rest IH]; intros w Hcodes.
  - destruct w. simpl. unfold ret. by rewrite app_nil_r.
  - simpl. unfold bind. rewrite spawnAsync_eq.
    rewrite decide_True by (by apply (Hcodes 0%nat)).
    rewrite IH.
    + simpl. by rewrite <- app_assoc.
    + intros i code Hi. apply (Hcodes (S i)). by rewrite pip_exit_code_cons.
Qed.

Lemma pip_install_each_first (pip3 : string) (args requirements : list string) :
  ∀ (w : World) (i : nat) (code : Z),
  pip_exit_code child pip3 args requirements (files w) i = Some code →
  code ≠ 0%Z →
  (∀ j c, j < i → pip_exit_code child pip3 args requirements (files w) j = Some c →
          c = 0%Z) →
  pip_install_each child pip3 args requirements w
  = (Throw (TypeError (invalid_code_message code pip3)),
     {| files := files_after_pip child pip3 args (take (S i) requirements) (files w);
        trace := trace w ++ map (fun req => EvSpawn pip3 (args ++ [ req ]) None)
                                (take (S i) requirements) |}).
Proof.
  induction requirements as [|req rest IH]; intros w i code Hi Hcode Hbefore.
  - discriminate Hi.
  - simpl. unfold bind. rewrite spawnAsync_eq. destruct i as [|i].
    + injection Hi as Hi. rewrite Hi. rewrite decide_False by done.
      by rewrite take_0.
    + rewrite decide_True by (apply (Hbefore 0%nat); [lia | done]).
      rewrite (IH _ i code).
      * simpl. by rewrite <- app_assoc.
      * done.
      * done.
      * intros j c Hj Hc. apply (Hbefore (S j)); [lia|]. by rewrite pip_exit_code_cons.
Qed.

(** X14: the requirements are installed by one pip process each, in order,
    each started on the files that the one before it left, and the first
    process that exits with a code other than 0 ends the loop.  When the
    process of the requirement at index [i] is the first to exit with such a
    code, the loop throws the TypeError for that code, exactly the processes
    of the requirements up to [i] have been spawned, and the files are as
    that process left them: the requirements after it are not attempted.
    When every process exits with 0 the loop returns, with one process
    spawned for each requirement. *)
Theorem pip_install_each_sequential
    (pip3 : string) (args requirements : list string) (w : World) :
  let exit_code := pip_exit_code child pip3 args requirements (files w) in
  let after (n : nat) :=
    {| files := files_after_pip child pip3 args (take n requirements) (files w);
       trace := trace w ++ map (fun req => EvSpawn pip3 (args ++ [ req ]) None)
                               (take n requirements) |} in
  (∀ i code,
     exit_code i = Some code → code ≠ 0%Z →
     (∀ j c, j < i → exit_code j = Some c → c = 0%Z) →
     pip_install_each child pip3 args requirements w
     = (Throw (TypeError (invalid_code_message code pip3)), after (S i)))
  ∧ ((∀ i code, exit_code i = Some code → code = 0%Z) →
     pip_install_each child pip3 args requirements w
     = (Return tt, after (length requirements))).
Proof.
  intros exit_code after. split.
  - intros i code Hi Hcode Hbefore. by apply pip_install_each_first.
  - intros Hcodes. subst after. cbv beta. rewrite firstn_all.
    by apply pip_install_each_all.
Qed.

(** X15: locating the interpreter changes nothing, and it fails in one way
    only: whatever went wrong with the marker file or with the interpreter
    it names, the error is the same fixed Error.  It succeeds exactly when
    the marker file can be read and bin/python3 under the directory it
    names exists. *)
Theorem locate_python_outcome (boaSrcPath : string) (w : World) :
  let marker := files w !! Path.canon (boaSrcPath +:+ "/.CONDA_INSTALL_DIR") in
  let named :=
    match marker with
    | Some (TextFile dir) => Some dir
    | Some (JsonFile m) => Some (stringify m)
    | _ => None
    end in
  match named with
  | Some dir =>
      if bool_decide (is_Some (files w !! Path.canon (dir +:+ "/bin/python3")))
      then locate_python stringify boaSrcPath w = (Return (dir +:+ "/bin/python3"), w)
      else locate_python stringify boaSrcPath w
           = (Throw (Error "Invalid boa/conda installation, please try to install."), w)
  | None =>
      locate_python stringify boaSrcPath w
      = (Throw (Error "Invalid boa/conda installation, please try to install."), w)
  end.
Proof.
  intros marker named. subst marker named.
  unfold locate_python, try_catch, bind, readFile, access.
  destruct (files w !! Path.canon (boaSrcPath +:+ "/.CONDA_INSTALL_DIR"))
    as [[|dir|m]|]; try reflexivity.
  - destruct (files w !! Path.canon (dir +:+ "/bin/python3")) eqn:Hpy.
    + by rewrite bool_decide_true.
    + by rewrite bool_decide_false by (by intros [? ?]).
  - destruct (files w !! Path.canon (stringify m +:+ "/bin/python3")) eqn:Hpy.
    + by rewrite bool_decide_true.
    + by rewrite bool_decide_false by (by intros [? ?]).
Qed.

End InstallMore.

Lemma install_without_toolchain_witness :
  install RuntimeExample.options RuntimeExample.production
    UninstallExample.getPluginDirectory UninstallExample.child UninstallExample.stringify
    (UninstallExample.version_of "1") UninstallExample.plain RuntimeExample.nothing
  = (Throw (TypeError "boa(/app/node_modules/@pipcook/boa) not exists, please try init again."),
     RuntimeExample.nothing).
Proof.
  apply (install_without_toolchain RuntimeExample.options RuntimeExample.production
           UninstallExample.getPluginDirectory UninstallExample.child
           UninstallExample.stringify (UninstallExample.version_of "1")
           UninstallExample.plain RuntimeExample.nothing);
    [discriminate | vm_compute; reflexivity | vm_compute; reflexivity | reflexivity].
Defined.

Lemma installNodeModules_spawns_witness :
  ∃ r w',
    installNodeModules RuntimeExample.options UninstallExample.getPluginDirectory
      UninstallExample.child (UninstallExample.version_of "1") UninstallExample.plain
      UninstallExample.bare_a = (r, w')
    ∧ trace w' = [ EvSpawn "npx" [ "pnpm"; "install"; "/work/a"; "-E"; "-P" ]
                           (Some "/plugins") ]
    ∧ (r = Return tt ↔ 0%Z = 0%Z).
Proof.
  apply (proj1 (installNodeModules_spawns RuntimeExample.options
                  UninstallExample.getPluginDirectory UninstallExample.child
                  (UninstallExample.version_of "1") UninstallExample.plain "/work/a"
                  UninstallExample.bare_a eq_refl)).
  vm_compute. by eexists.
Defined.

Lemma pip_install_each_sequential_witness :
  pip_install_each UninstallExample.picky_child "/env/bin/pip3" [ "install" ]
    [ "numpy"; "bar==1.0"; "foo" ] RuntimeExample.nothing
  = (Throw (TypeError "invalid code 1 from /env/bin/pip3"),
     {| files := ∅;
        trace := [ EvSpawn "/env/bin/pip3" [ "install"; "numpy" ] None;
                   EvSpawn "/env/bin/pip3" [ "install"; "bar==1.0" ] None ] |}).
Proof.
  apply (proj1 (pip_install_each_sequential UninstallExample.picky_child "/env/bin/pip3"
                  [ "install" ] [ "numpy"; "bar==1.0"; "foo" ] RuntimeExample.nothing)
           1%nat 1%Z eq_refl ltac:(discriminate)).
  intros j c Hj. destruct j as [|j]; [|lia]. by intros [= <-].
Defined.

Lemma locate_python_outcome_witness :
  locate_python UninstallExample.stringify "/app/node_modules/@pipcook/boa"
    RuntimeExample.nothing
  = (Throw (Error "Invalid boa/conda installation, please try to install."),
     RuntimeExample.nothing).
Proof.
  exact (locate_python_outcome UninstallExample.stringify "/app/node_modules/@pipcook/boa"
           RuntimeExample.nothing).
Defined.

(** ** validAndAssign again *)

(** X16: what [validAndAssign] returns.  With NODE_ENV set to [test] it
    never throws, and a package without the [pipcook] field comes back as it
    is, without a target.  Whenever it returns, the name, the version and the
    conda configuration are those of the argument, and validating the
    returned package again with the same source returns it unchanged; and
    outside [test] the returned package always carries the source and the
    target, and no warning was printed. *)
Theorem validAndAssign_returns
    (options : RuntimeOptions) (process : Process)
    (pkg : PluginPackage) (source : PluginSource) (w : World) :
  (NODE_ENV process = Some "test" →
   ∃ p w', validAndAssign options process pkg source w = (Return p, w')
         ∧ (pkg_pipcook pkg = None → p = pkg))
  ∧ (∀ p w', validAndAssign options process pkg source w = (Return p, w') →
       pkg_name p = pkg_name pkg ∧ pkg_version p = pkg_version pkg
       ∧ pkg_conda p = pkg_conda pkg
       ∧ fst (validAndAssign options process p source w') = Return p
       ∧ (NODE_ENV process ≠ Some "test" →
          w' = w
          ∧ ∃ meta, pkg_pipcook p = Some meta
              ∧ pipcook_source meta = Some source
              ∧ pipcook_target meta
                = Some (target_of options (pkg_name pkg) (pkg_version pkg)))).
Proof.
  unfold validAndAssign, validPackage, assignPackage. split.
  - intros Htest.
    destruct (pkg_pipcook pkg) as [meta|]; [by eexists _, _|].
    rewrite decide_True by done. by eexists _, _.
  - intros p w'. destruct (pkg_pipcook pkg) as [meta|] eqn:Hmeta.
    + intros [= <- <-]. simpl. do 4 (split; [done|]).
      intros _. split; [done|]. by eexists.
    + destruct (decide (NODE_ENV process = Some "test")) as [Htest|Htest];
        [|discriminate].
      intros [= <- <-]. rewrite Hmeta. by do 4 (split; [done|]).
Qed.

Lemma validAndAssign_returns_witness :
  ∃ p w',
    validAndAssign RuntimeExample.options RuntimeExample.testing RuntimeExample.bare
      RuntimeExample.source RuntimeExample.nothing = (Return p, w')
    ∧ (pkg_pipcook RuntimeExample.bare = None → p = RuntimeExample.bare).
Proof.
  exact (proj1 (validAndAssign_returns RuntimeExample.options RuntimeExample.testing
                  RuntimeExample.bare RuntimeExample.source RuntimeExample.nothing)
         eq_refl).
Defined.

(** ** getSource *)

Lemma length_app_slash (p : string) : String.length (p +:+ "/") = S (String.length p).
Proof.
  induction p as [|a p IH]; [done|].
  change (String a p +:+ "/") with (String a (p +:+ "/")). simpl. by rewrite IH.
Qed.

Lemma strip_trailing_slash_snoc (p : string) : strip_trailing_slash (p +:+ "/") = p.
Proof.
  unfold strip_trailing_slash. rewrite endsWithSlash_app by done.
  change (Path.endsWithSlash "/") with true. cbv iota.
  rewrite length_app_slash. simpl. rewrite Nat.sub_0_r. apply substr_to_app.
Qed.

Section GetSourceProps.

Variable options : RuntimeOptions.
Variable parsePluginName : string → result (PluginProtocol * option UrlObject).
Variable packageName : NpmPackageNameSchema → string.
Variable generateId : string.
Variable PIPCOOK_TMPDIR : string.

(** X17: what every source that [getSource] returns satisfies: it carries
    the name as given and a locator that is not null, and it carries a name
    schema exactly when its protocol is the registry.  Directory and
    repository sources have the name itself as locator; a registry source
    has the schema of the name and the registry prefix, one closing slash
    dropped, followed by a slash and the package name. *)
Theorem getSource_invariants (name : string) (source : PluginSource) :
  getSource options parsePluginName packageName generateId PIPCOOK_TMPDIR name
  = Return source →
  src_name source = name
  ∧ is_Some (src_uri source)
  ∧ (is_Some (src_schema source) ↔ src_from source = npm)
  ∧ (src_from source = fs ∨ src_from source = git → src_uri source = Some name)
  ∧ (src_from source = npm →
     ∃ schema, getNameSchema name = Return schema
       ∧ src_schema source = Some schema
       ∧ src_uri source
         = Some (strip_trailing_slash (npmRegistryPrefix options)
                 +:+ "/" +:+ packageName schema)).
Proof.
  unfold getSource.
  destruct (parsePluginName name) as [[protocol urlObject]|e]; [|discriminate].
  destruct protocol.
  - destruct (getNameSchema name) as [schema|e] eqn:Hs; [|discriminate].
    intros [= <-]. simpl. split; [done|]. split; [by eexists|].
    split; [split; [done | by eexists]|]. split; [by intros [?|?]|].
    intros _. by exists schema.
  - intros [= <-]. simpl. split; [done|]. split; [by eexists|].
    split; [split; [by intros [? ?] | discriminate]|]. split; [done | discriminate].
  - intros [= <-]. simpl. split; [done|]. split; [by eexists|].
    split; [split; [by intros [? ?] | discriminate]|]. split; [done | discriminate].
  - destruct urlObject as [u|]; [|discriminate].
    intros [= <-]. simpl. split; [done|]. split; [by eexists|].
    split; [split; [by intros [? ?] | discriminate]|].
    split; [by intros [?|?] | discriminate].
Qed.

End GetSourceProps.

Lemma getSource_invariants_witness :
  ∃ schema, getNameSchema "@pipcook/core@1.2.3" = Return schema
    ∧ Some (mkSchema (Some "@pipcook") "core" (Some "1.2.3")) = Some schema
    ∧ Some "https://registry.npmjs.org/@pipcook/core"
      = Some (strip_trailing_slash (npmRegistryPrefix FetchExample.options)
              +:+ "/" +:+ FetchExample.packageName schema).
Proof.
  exact (proj2 (proj2 (proj2 (proj2
    (getSource_invariants FetchExample.options FetchExample.parsePluginName
       FetchExample.packageName "id" "/tmp" "@pipcook/core@1.2.3"
       (mkSource npm "@pipcook/core@1.2.3"
          (Some "https://registry.npmjs.org/@pipcook/core") None
          (Some (mkSchema (Some "@pipcook") "core" (Some "1.2.3"))))
       eq_refl)))) eq_refl).
Defined.

(** X18: a registry prefix written with one closing slash and the same
    prefix written without it resolve every name to the same source. *)
Theorem getSource_registry_prefix
    (options1 options2 : RuntimeOptions)
    (parsePluginName : string → result (PluginProtocol * option UrlObject))
    (packageName : NpmPackageNameSchema → string)
    (generateId PIPCOOK_TMPDIR name : string) :
  npmRegistryPrefix options1 = npmRegistryPrefix options2 +:+ "/" →
  Path.endsWithSlash (npmRegistryPrefix options2) = false →
  getSource options1 parsePluginName packageName generateId PIPCOOK_TMPDIR name
  = getSource options2 parsePluginName packageName generateId PIPCOOK_TMPDIR name.
Proof.
  intros Hslash Hplain. unfold getSource. rewrite Hslash.
  rewrite strip_trailing_slash_snoc.
  unfold strip_trailing_slash. by rewrite Hplain.
Qed.

Lemma getSource_registry_prefix_witness :
  getSource FetchExample.options FetchExample.parsePluginName FetchExample.packageName
    "id" "/tmp" "@pipcook/core@1.2.3"
  = getSource FetchExample.options_no_slash FetchExample.parsePluginName
      FetchExample.packageName "id" "/tmp" "@pipcook/core@1.2.3".
Proof.
  apply getSource_registry_prefix; reflexivity.
Defined.

(** ** fetch *)

Section FetchProps.

Variable options : RuntimeOptions.
Variable process : Process.
Variable parsePluginName : string → result (PluginProtocol * option UrlObject).
Variable packageName : NpmPackageNameSchema → string.
Variable generateId : string.
Variable PIPCOOK_TMPDIR : string.
Variable JSON_parse : string → result NpmPackageMetadata.
Variable get : string → RequestPromiseOptions → result Response.
Context {C : Type} `{!CacheOps C (HTTPCache NpmPackageMetadata)}.
Variable fetchPackageJsonFromGit : string → string → result PluginPackage.
Variable readPackageJson : string → gmap string fsnode → result PluginPackage.
Variable download : string → string → IO unit.
Variable fetchPackageJsonFromTarball : string → gmap string fsnode → result PluginPackage.

(** X19: a registry name that asks for a version the registry does not
    hold.  The request is made and its answer is put in the cache, and the
    selection does not fail.  When the version is not the name of a member
    that every object inherits, the selection gives [undefined] and the
    failure comes from the validation that follows, as a TypeError about
    reading a property of [undefined], not as an error about the version;
    with NODE_ENV set to [test] there is no failure at all: a warning is
    printed and [fetch] returns [undefined].  When the version is such a
    name, the selection gives the inherited member, which [validPackage]
    rejects for its missing [pipcook] field; with NODE_ENV set to [test] a
    warning is printed and [fetch] returns that member. *)
Theorem fetch_missing_version
    (name v : string) (u : option UrlObject) (schema : NpmPackageNameSchema)
    (resp : Response) (meta : NpmPackageMetadata) (cache : C) (w : World) :
  let uri := strip_trailing_slash (npmRegistryPrefix options)
             +:+ "/" +:+ packageName schema in
  let cache' :=
    cache_put uri (mkCache (resp_etag resp) (resp_last_modified resp) meta)
              (snd (cache_get uri cache)) in
  let fetched :=
    fetch options process parsePluginName packageName generateId PIPCOOK_TMPDIR
      JSON_parse get fetchPackageJsonFromGit readPackageJson download
      fetchPackageJsonFromTarball name cache w in
  parsePluginName name = Return (npm, u) →
  getNameSchema name = Return schema →
  schema_version schema = Some v →
  v ≠ "beta" → v ≠ "latest" →
  get uri (request_options NpmPackageMetadata (fun _ => true) (fst (cache_get uri cache)))
  = Return resp →
  resp_statusCode resp = 200%Z →
  JSON_parse (resp_body resp) = Return meta →
  versions meta !! v = None →
  (v ∉ object_prototype_members →
   (NODE_ENV process ≠ Some "test" →
    ∃ message, fetched = (Throw (TypeError message), cache', w))
   ∧ (NODE_ENV process = Some "test" →
      fetched = (Return Undefined, cache', emit (EvWarn skip_warning) w)))
  ∧ (v ∈ object_prototype_members →
     (NODE_ENV process ≠ Some "test" →
      fetched = (Throw (TypeError invalid_plugin_message), cache', w))
     ∧ (NODE_ENV process = Some "test" →
        fetched = (Return (Inherited v), cache', emit (EvWarn skip_warning) w))).
Proof.
  intros uri cache' fetched Hparse Hschema Hv Hbeta Hlatest Hget H200 Hjson Habsent.
  assert (v ≠ "") as Hne.
  { intros ->. by apply (getNameSchema_version_nonempty name schema). }
  subst fetched. unfold fetch, getSource. rewrite Hparse, Hschema.
  unfold fetch_manifest. cbn [src_from src_uri]. fold uri.
  rewrite (request_200 JSON_parse (fun _ => true) get uri cache resp Hget meta H200 Hjson).
  fold cache'.
  rewrite (select_explicit meta (mkSource npm name (Some uri) u (Some schema)) schema
             eq_refl v Hv Hbeta Hlatest Hne).
  rewrite (property_absent _ _ Habsent). unfold validAndAssign_fetched. split.
  - intros Hout. rewrite bool_decide_false by done. split.
    + intros Henv. rewrite decide_False by done. by eexists.
    + intros Henv. by rewrite decide_True.
  - intros Hin. rewrite bool_decide_true by done. split.
    + intros Henv. by rewrite decide_False.
    + intros Henv. by rewrite decide_True.
Qed.

End FetchProps.

Lemma fetch_missing_version_witness :
  (∃ message,
     fetch FetchExample.options RuntimeExample.production FetchExample.parsePluginName
       FetchExample.packageName "id" "/tmp" FetchExample.JSON_parse FetchExample.get
       FetchExample.fetchPackageJsonFromGit FetchExample.readPackageJson
       FetchExample.download FetchExample.readPackageJson
       "plugin@9.9.9" FetchExample.cache RuntimeExample.nothing
     = (Throw (TypeError message),
        LRU.put "https://registry.npmjs.org/plugin"
          (mkCache (Some "abc") (Some "Mon") SelectExample.metadata) FetchExample.cache,
        RuntimeExample.nothing))
  ∧ fetch FetchExample.options RuntimeExample.testing FetchExample.parsePluginName
      FetchExample.packageName "id" "/tmp" FetchExample.JSON_parse FetchExample.get
      FetchExample.fetchPackageJsonFromGit FetchExample.readPackageJson
      FetchExample.download FetchExample.readPackageJson
      "plugin@constructor" FetchExample.cache RuntimeExample.nothing
    = (Return (Inherited "constructor"),
       LRU.put "https://registry.npmjs.org/plugin"
         (mkCache (Some "abc") (Some "Mon") SelectExample.metadata) FetchExample.cache,
       emit (EvWarn skip_warning) RuntimeExample.nothing).
Proof.
  split.
  - apply (proj1 (proj1 (fetch_missing_version FetchExample.options
                  RuntimeExample.production
                  FetchExample.parsePluginName FetchExample.packageName "id" "/tmp"
                  FetchExample.JSON_parse FetchExample.get
                  FetchExample.fetchPackageJsonFromGit FetchExample.readPackageJson
                  FetchExample.download FetchExample.readPackageJson
                  "plugin@9.9.9" "9.9.9" None (mkSchema None "plugin" (Some "9.9.9"))
                  (mkResponse 200 (Some "abc") (Some "Mon") "{}" "OK")
                  SelectExample.metadata FetchExample.cache RuntimeExample.nothing
                  eq_refl eq_refl eq_refl ltac:(discriminate) ltac:(discriminate)
                  eq_refl eq_refl eq_refl ltac:(vm_compute; reflexivity))
                ltac:(not_among_members))).
    discriminate.
  - apply (proj2 (proj2 (fetch_missing_version FetchExample.options
                  RuntimeExample.testing
                  FetchExample.parsePluginName FetchExample.packageName "id" "/tmp"
                  FetchExample.JSON_parse FetchExample.get
                  FetchExample.fetchPackageJsonFromGit FetchExample.readPackageJson
                  FetchExample.download FetchExample.readPackageJson
                  "plugin@constructor" "constructor" None
                  (mkSchema None "plugin" (Some "constructor"))
                  (mkResponse 200 (Some "abc") (Some "Mon") "{}" "OK")
                  SelectExample.metadata FetchExample.cache RuntimeExample.nothing
                  eq_refl eq_refl eq_refl ltac:(discriminate) ltac:(discriminate)
                  eq_refl eq_refl eq_refl ltac:(vm_compute; reflexivity))
                ltac:(left))).
    reflexivity.
Defined.

(** ** fetchFromInstalledPlugin *)

(** X20: the manifest of an installed plugin is read from the plugin home of
    the core package, and assigned without validation, so a manifest without
    the [pipcook] field makes the call throw a TypeError whatever NODE_ENV
    is.  Otherwise the package comes back with a source that has the
    protocol and the name but no locator and no name schema, and with target
    paths under the install directory of the runtime options; its name, its
    version and its conda configuration are those of the manifest read. *)
Theorem fetchFromInstalledPlugin_outcome
    (options : RuntimeOptions)
    (getPluginDirectory : string → string → PluginProtocol → string)
    (PIPCOOK_PLUGINS : string)
    (readPackageJson : string → gmap string fsnode → result PluginPackage)
    (name version : string) (from : PluginProtocol) (pkg : PluginPackage) (w : World) :
  readPackageJson
    (Path.join [ PIPCOOK_PLUGINS; "node_modules"; getPluginDirectory name version from;
                 "package.json" ]) (files w) = Return pkg →
  (pkg_pipcook pkg = None →
   ∃ message,
     fetchFromInstalledPlugin options getPluginDirectory PIPCOOK_PLUGINS readPackageJson
       name version from w = (Throw (TypeError message), w))
  ∧ (∀ meta, pkg_pipcook pkg = Some meta →
     ∃ p,
       fetchFromInstalledPlugin options getPluginDirectory PIPCOOK_PLUGINS readPackageJson
         name version from w = (Return p, w)
       ∧ pkg_pipcook p
         = Some {| pipcook_declared := pipcook_declared meta;
                   pipcook_source :=
                     Some {| src_from := from; src_name := name; src_uri := None;
                             src_urlObject := None; src_schema := None |};
                   pipcook_target :=
                     Some (target_of options (pkg_name pkg) (pkg_version pkg)) |}
       ∧ pkg_name p = pkg_name pkg
       ∧ pkg_version p = pkg_version pkg
       ∧ pkg_conda p = pkg_conda pkg).
Proof.
  intros Hread. unfold fetchFromInstalledPlugin, bind, lift_read. rewrite Hread.
  unfold assignPackage. split.
  - intros ->. by eexists.
  - intros meta ->. eexists. split; [reflexivity|]. by repeat split.
Qed.

Lemma fetchFromInstalledPlugin_outcome_witness :
  ∃ p,
    fetchFromInstalledPlugin RuntimeExample.options UninstallExample.getPluginDirectory
      "/home/.pipcook/plugins" FetchExample.readPackageJson "a" "1" fs
      RuntimeExample.nothing = (Return p, RuntimeExample.nothing)
    ∧ pkg_pipcook p
      = Some {| pipcook_declared := {[ "category" := "dataCollect" ]};
                pipcook_source := Some (mkSource fs "a" None None None);
                pipcook_target :=
                  Some {| PYTHONPATH :=
                            "/plugins/conda_envs/a@1/lib/python3.7/site-packages";
                          DESTPATH := "/plugins/node_modules/a@1" |} |}
    ∧ pkg_name p = "a"
    ∧ pkg_version p = "1"
    ∧ pkg_conda p = None.
Proof.
  exact (proj2 (fetchFromInstalledPlugin_outcome RuntimeExample.options
                  UninstallExample.getPluginDirectory "/home/.pipcook/plugins"
                  FetchExample.readPackageJson "a" "1" fs RuntimeExample.plugin
                  RuntimeExample.nothing eq_refl)
         _ eq_refl).
Defined.

(** ** install of a plugin without interpreter dependencies *)

Lemma install_proceeds
    (options : RuntimeOptions) (process : Process)
    (getPluginDirectory : string → string → PluginProtocol → string)
    (child : string → list string → option string → gmap string fsnode
             → Z * gmap string fsnode)
    (stringify : RootManifest → string)
    (pkg : PluginPackage) (opts : InstallOptions) (w : World) :
  force opts ≠ Some true →
  fst (isInstalled options (pkg_name pkg) w) = Return false →
  install options process getPluginDirectory child stringify pkg opts w
  = provision options process getPluginDirectory child stringify pkg opts w.
Proof.
  intros Hf Hout. rewrite isInstalled_eq in Hout. simpl in Hout. injection Hout as Hout.
  unfold install. rewrite decide_False by done.
  unfold bind at 1 2. unfold ret at 1. rewrite isInstalled_eq. by rewrite Hout.
Qed.

(** X21: a plugin that declares no conda dependencies, is not installed and
    is not forced, on an install directory with a root manifest and with the
    toolchain beside the module, is installed by one process and no other
    effect: npx with the pnpm arguments in the install directory.  [install]
    returns true when that process exits with 0 and throws the TypeError
    for its exit code otherwise. *)
Theorem install_module_only
    (options : RuntimeOptions) (process : Process)
    (getPluginDirectory : string → string → PluginProtocol → string)
    (child : string → list string → option string → gmap string fsnode
             → Z * gmap string fsnode)
    (stringify : RootManifest → string)
    (pkg : PluginPackage) (opts : InstallOptions) (spec : string) (w : World) :
  let cwd := Some (installDir options) in
  let pnpm := child "npx" (npmArgs options spec) cwd (files w) in
  force opts ≠ Some true →
  fst (isInstalled options (pkg_name pkg) w) = Return false →
  is_Some (files w !! Path.canon
             (Path.join [ dirname process; "../node_modules/@pipcook/boa" ])) →
  is_Some (files w !! Path.canon (installDir options +:+ "/package.json")) →
  (∀ deps, pkg_conda pkg ≠ Some (mkConda (Some deps))) →
  pluginAbsName getPluginDirectory pkg = Return spec →
  install options process getPluginDirectory child stringify pkg opts w
  = (if decide (fst pnpm = 0%Z) then Return true
     else Throw (TypeError (invalid_code_message (fst pnpm) "npx")),
     {| files := snd pnpm;
        trace := trace w ++ [ EvSpawn "npx" (npmArgs options spec) cwd ] |}).
Proof.
  intros cwd pnpm Hf Hout Hboa Hm Hconda Hspec.
  rewrite install_proceeds by done.
  assert (∀ boa, installPythonPackages options child stringify pkg boa opts = ret tt)
    as Hskip.
  { intros boa. unfold installPythonPackages.
    destruct (pkg_conda pkg) as [[[deps|]]|] eqn:Hc; try done. by destruct (Hconda deps). }
  unfold provision, locate_boa, bind, pathExists.
  rewrite bool_decide_true by done. unfold ret at 1.
  unfold promise_all, installNodeModules. rewrite Hspec, Hskip.
  unfold bind, pathExists. rewrite bool_decide_true by done.
  unfold ret at 1. rewrite spawnAsync_eq. fold cwd. fold pnpm.
  unfold ret. by destruct (decide (fst pnpm = 0%Z)).
Qed.

Lemma install_module_only_witness :
  install RuntimeExample.options
    {| NODE_ENV := None; dirname := "/plugins/node_modules/x";
       require_resolve := fun _ => None |}
    UninstallExample.getPluginDirectory UninstallExample.child UninstallExample.stringify
    {| pkg_name := "b"; pkg_version := "1";
       pkg_pipcook := Some (mkPipcook ∅ (Some RuntimeExample.source) None);
       pkg_conda := None |}
    UninstallExample.plain
    {| files := <[ "/plugins/node_modules/node_modules/@pipcook/boa" := Dir ]>
                  (files UninstallExample.bare_a);
       trace := [] |}
  = (Return true,
     {| files := <[ "/plugins/node_modules/node_modules/@pipcook/boa" := Dir ]>
                   (files UninstallExample.bare_a);
        trace := [ EvSpawn "npx" [ "pnpm"; "install"; "/work/a"; "-E"; "-P" ]
                           (Some "/plugins") ] |}).
Proof.
  apply (install_module_only RuntimeExample.options
           {| NODE_ENV := None; dirname := "/plugins/node_modules/x";
              require_resolve := fun _ => None |}
           UninstallExample.getPluginDirectory UninstallExample.child
           UninstallExample.stringify
           {| pkg_name := "b"; pkg_version := "1";
              pkg_pipcook := Some (mkPipcook ∅ (Some RuntimeExample.source) None);
              pkg_conda := None |}
           UninstallExample.plain "/work/a");
    [discriminate | vm_compute; reflexivity | vm_compute; by eexists
    | vm_compute; by eexists | discriminate | reflexivity].
Defined.

(** ** Batches with a repeated entry *)

(** X22: an entry listed twice in a batch is removed once: for an install
    directory and a name that are not empty, the batch of an entry and the
    same entry again behaves as the uninstall of that one entry, the second
    occurrence being skipped. *)
Theorem uninstall_repeated_entry
    (options : RuntimeOptions) (meta : PkgMeta) (w : World) :
  installDir options ≠ "" →
  meta_name meta ≠ "" →
  uninstall options (Many [ meta; meta ]) w = uninstall options (One meta) w.
Proof.
  intros Hdir Hname.
  destruct (files w !! Path.canon (manifest_path options)) as [[| |m]|] eqn:Hm;
    try (unfold uninstall, bind, readJson; by rewrite Hm).
  rewrite !(uninstall_readable options _ m w Hm).
  cbn [removePkgs]. unfold bind at 1 2.
  destruct (isInstalled_decided options (meta_name meta) w) as [Hin|Hout].
  - destruct (removePkg_remove options (meta_name meta) (meta_version meta) m w Hin)
      as (w1 & Hrun & _).
    rewrite Hrun. cbn [fst snd].
    assert (fst (isInstalled options (meta_name meta) w1) = Return false) as Hgone.
    { rewrite isInstalled_eq. simpl.
      rewrite (removePkg_uninstalls options Hdir _ _ _ _ _ _ Hname Hrun).
      by rewrite bool_decide_false by (by intros [? ?]). }
    by rewrite (removePkg_skip options _ _ _ w1 Hgone).
  - rewrite (removePkg_skip options _ _ m w Hout). cbn [fst snd].
    by rewrite (removePkg_skip options _ _ m w Hout).
Qed.

Lemma uninstall_repeated_entry_witness :
  uninstall RuntimeExample.options (Many [ UninstallExample.a1; UninstallExample.a1 ])
    UninstallExample.bare_a
  = uninstall RuntimeExample.options (One UninstallExample.a1) UninstallExample.bare_a.
Proof.
  apply uninstall_repeated_entry; discriminate.
Defined.

(** ** What fetch leaves alone *)

(** X23: [fetch] of a name that [parsePluginName] takes for a directory, a
    repository or a tarball never touches the HTTP cache; and [fetch] of a
    registry name that starts with [@] and holds no slash throws the
    TypeError of [getNameSchema] before any request, with the cache and the
    world as they were. *)
Theorem fetch_untouched
    (options : RuntimeOptions) (process : Process)
    (parsePluginName : string → result (PluginProtocol * option UrlObject))
    (packageName : NpmPackageNameSchema → string)
    (generateId PIPCOOK_TMPDIR : string)
    (JSON_parse : string → result NpmPackageMetadata)
    (get : string → RequestPromiseOptions → result Response)
    {C : Type} `{!CacheOps C (HTTPCache NpmPackageMetadata)}
    (fetchPackageJsonFromGit : string → string → result PluginPackage)
    (readPackageJson : string → gmap string fsnode → result PluginPackage)
    (download : string → string → IO unit)
    (fetchPackageJsonFromTarball : string → gmap string fsnode → result PluginPackage)
    (name : string) (cache : C) (w : World) :
  let fetched :=
    fetch options process parsePluginName packageName generateId PIPCOOK_TMPDIR
      JSON_parse get fetchPackageJsonFromGit readPackageJson download
      fetchPackageJsonFromTarball name cache w in
  (∀ protocol u, parsePluginName name = Return (protocol, u) → protocol ≠ npm →
     snd (fst fetched) = cache)
  ∧ (∀ u rest, parsePluginName name = Return (npm, u) →
       name = String "@"%char rest → "/"%char ∉ chars rest →
       fetched = (Throw (TypeError (invalid_name_message name)), cache, w)).
Proof.
  intros fetched. subst fetched. split.
  - intros protocol u Hparse Hproto.
    assert (∀ source, src_from source ≠ npm →
      snd (fst (fetch_manifest JSON_parse get fetchPackageJsonFromGit readPackageJson
                  download fetchPackageJsonFromTarball source cache w)) = cache)
      as Hmanifest.
    { intros source Hfrom. unfold fetch_manifest.
      destruct (src_from source); [done|..].
      - by destruct (src_urlObject source).
      - done.
      - by destruct (bind _ _ w). }
    unfold fetch.
    destruct (getSource options parsePluginName packageName generateId PIPCOOK_TMPDIR name)
      as [source|e] eqn:Hsource; [|done].
    assert (src_from source = protocol) as Hfrom.
    { revert Hsource. unfold getSource. rewrite Hparse.
      destruct protocol; [done|..]; try (by intros [= <-]).
      destruct u; [by intros [= <-] | discriminate]. }
    specialize (Hmanifest source ltac:(by rewrite Hfrom)).
    destruct (fetch_manifest _ _ _ _ _ _ source cache w) as [[r c] w'].
    simpl in Hmanifest. subst c.
    destruct r as [pkg|e]; [|done].
    by destruct (validAndAssign_fetched options process pkg source w').
  - intros u rest Hparse -> Hrest. unfold fetch, getSource. rewrite Hparse.
    rewrite getNameSchema_scoped_eq. rewrite search_None; [done|].
    simpl. intros Hin.
    apply elem_of_cons in Hin as [Heq|Hin]; [discriminate Heq | done].
Qed.

Lemma fetch_untouched_witness :
  fetch FetchExample.options RuntimeExample.production FetchExample.parsePluginName
    FetchExample.packageName "id" "/tmp" FetchExample.JSON_parse FetchExample.get
    FetchExample.fetchPackageJsonFromGit FetchExample.readPackageJson
    FetchExample.download FetchExample.readPackageJson
    "@pipcook" FetchExample.cache RuntimeExample.nothing
  = (Throw (TypeError "invalid package name: @pipcook"), FetchExample.cache,
     RuntimeExample.nothing).
Proof.
  apply (proj2 (fetch_untouched FetchExample.options RuntimeExample.production
                  FetchExample.parsePluginName FetchExample.packageName "id" "/tmp"
                  FetchExample.JSON_parse FetchExample.get
                  FetchExample.fetchPackageJsonFromGit FetchExample.readPackageJson
                  FetchExample.download FetchExample.readPackageJson
                  "@pipcook" FetchExample.cache RuntimeExample.nothing)
         None "pipcook"); [reflexivity | reflexivity | not_in_chars].
Defined.
